(** * Portion fetcher and quote entities of the unified routing API

    A shallow embedding of
    - [src/lib/fetchers/PortionFetcher.ts]: the portion data, the cache key
      and [getPortion];
    - [src/lib/entities/quote/ClassicQuote.ts]: the amount accessors and
      [getPermitData] (module [ClassicQuote]);
    - [src/test/utils/quoteResponse.ts]: [parseQuote] and
      [buildQuoteResponse];
    followed by the properties stated about them.

    Conventions.  A JavaScript [string] is a [string] of 8-bit characters
    (token addresses, cache keys and decimal amounts are ASCII, and
    [toLowerCase] is taken on ASCII letters); a [number] holding a chain id,
    a TTL, a bips value, a nonce or a timestamp is a [Z], and where it is
    printed it is below 1e21 in magnitude, so that all its digits are
    printed; an optional member [f?: T]
    is an [option T]; a call that may [throw], or an [async] function whose
    promise may reject, yields an [Outcome]. *)

From Stdlib Require Import ZArith Ascii String List Lia DecimalString DecimalPos.
From stdpp Require Import base option gmap strings list.

Local Open Scope Z_scope.
Local Open Scope string_scope.

(** ** JavaScript strings *)

Module Js.

(** [A]..[Z] are the codes 65..90. *)
Definition is_upper (c : ascii) : bool :=
  let n := N_of_ascii c in ((65 <=? n) && (n <=? 90))%N.

(** The character map underlying [String.prototype.toLowerCase] on ASCII
    text: upper-case letters move by 32, everything else is kept. *)
Definition lower_char (c : ascii) : ascii :=
  if is_upper c then ascii_of_N (N_of_ascii c + 32) else c.

Fixpoint toLowerCase (s : string) : string :=
  match s with
  | EmptyString => EmptyString
  | String c rest => String (lower_char c) (toLowerCase rest)
  end.

(** Template-literal conversion [`${n}`] of an integral [number]. *)
Definition number_toString (n : Z) : string :=
  NilZero.string_of_int (Z.to_int n).

(** Truthiness of a string: only the empty string is falsy. *)
Definition truthy (s : string) : bool :=
  match s with EmptyString => false | String _ _ => true end.

(** [Array.prototype.includes] on an array of strings. *)
Fixpoint includes (xs : list string) (x : string) : bool :=
  match xs with
  | [] => false
  | y :: ys => if String.eqb y x then true else includes ys x
  end.

(** Two characters that are the same letter in possibly different case. *)
Definition same_letter (c d : ascii) : bool :=
  Ascii.eqb c d
  || (is_upper c && Ascii.eqb d (lower_char c))
  || (is_upper d && Ascii.eqb c (lower_char d)).

(** Two strings equal up to letter casing, position by position. *)
Fixpoint eq_caseless (s t : string) : bool :=
  match s, t with
  | EmptyString, EmptyString => true
  | String c s', String d t' => same_letter c d && eq_caseless s' t'
  | _, _ => false
  end.

End Js.

(** ** Portion data ([PortionFetcher.ts], lines 11-51) *)

Inductive PortionType := Flat | Regressive.

Record Portion := {
  bips : Z;
  recipient : string;
  type : PortionType;
}.

Record GetPortionResponse := {
  hasPortion : bool;
  portion : option Portion;
}.

Definition GET_NO_PORTION_RESPONSE : GetPortionResponse :=
  {| hasPortion := false; portion := None |}.

Definition BX_PORTION_ADDRESSES : list string :=
  [ "eth";
    "0x0000000000000000000000000000000000000000";
    "0xa0b86991c6218b36c1d19d4a2e9eb0ce3606eb48";
    "0xc02aaa39b223fe8d0a0e5c4f27ead9083c756cc2";
    "0xdac17f958d2ee523a2206206994597c13d831ec7";
    "0x6b175474e89094c44da98b954eedeac495271d0f";
    "0x2260fac5e5542a773aa44fbcfedf7c193bc2c599";
    "0x1a7e4e63778b4f12a199c062f3efdd288afcbce8";
    "0x056fd409e1d7a124bd7017459dfea2f387b6d5cd";
    "0x5f98805a4e8be255a32880fdec7f6728c6568ba0";
    "0x1abaea1f7c830bd89acc67ec4af516284b1bc33c";
    "0x70e8de73ce538da2beed35d14187f6959a8eca96" ].

Definition BX_PORTION_RESPONSE : GetPortionResponse :=
  {| hasPortion := true;
     portion := Some {| bips := 5;
                        recipient := "0x27213E28D7fDA5c57Fe9e5dD923818DBCcf71c47";
                        type := Flat |} |}.

(** [PORTION_CACHE_KEY] (lines 54-60). *)
Definition PORTION_CACHE_KEY
    (tokenInChainId : Z) (tokenInAddress : string)
    (tokenOutChainId : Z) (tokenOutAddress : string) : string :=
  "PortionFetcher-" ++ Js.number_toString tokenInChainId ++ "-" ++
  Js.toLowerCase tokenInAddress ++ "-" ++
  Js.number_toString tokenOutChainId ++ "-" ++
  Js.toLowerCase tokenOutAddress.

Arguments PORTION_CACHE_KEY : simpl never.

(** ** Effects: exceptions, collaborators and the ambient world *)

(** Ways in which the HTTP call to the portion service is rejected.  The
    body of an accepted reply is not examined by [getPortion]: a reply is
    taken to carry a portion response. *)
Inductive RemoteFault :=
| NetworkError
| BadStatus (code : Z).

(** Values that are thrown.  [Error] is the value of [new Error(message)];
    [NamedError] stands for an instance of a class of its own that extends
    [Error], under the name of the class (the sources embedded here throw
    none); [InvalidArgument] and [NumericFault] are the faults of ethers,
    [InvalidCharacter] the refusal of bn.js to read digits. *)
Inductive Exn :=
| Error (message : string)
| NamedError (name message : string)
| AxiosError (fault : RemoteFault)
| CacheError (operation : string)
| InvalidArgument (reason value : string)
| NumericFault (fault : string)
| InvalidCharacter (value : string).

Inductive Outcome (A : Type) :=
| Returned (a : A)
| Thrown (e : Exn).
Arguments Returned {A} a.
Arguments Thrown {A} e.

(** Query parameters of [GET <base-url>/portion]. *)
Record PortionParams := {
  p_tokenInChainId : Z;
  p_tokenInAddress : string;
  p_tokenOutChainId : Z;
  p_tokenOutAddress : string;
}.

Record Request := {
  req_url : string;
  req_params : PortionParams;
}.

Inductive RemoteReply :=
| Replied (data : GetPortionResponse)
| Failed (fault : RemoteFault).

Inductive CacheOp :=
| OpGet (key : string)
| OpSet (key : string) (value : GetPortionResponse) (ttl : Z).

(** [Unit] of [aws-embedded-metrics], as far as it is used. *)
Inductive MetricUnit := NoUnit | Milliseconds.

Record Metric := {
  metric_name : string;
  metric_value : Z;
  metric_unit : MetricUnit;
}.

(** What the collaborators answer.  Each oracle is indexed by the number of
    times the collaborator has been used before, so that any deterministic
    behaviour - a flag toggled between two reads, a service that fails on
    its third call, a store that throws on some operation - is an instance. *)
Record Collaborators := {
  (** [uraEnablePortion()] of [lib/constants]: the value of the k-th read. *)
  flag_value : nat -> bool;
  (** [forcePortion] of [lib/util/portion]: a module constant. *)
  forcePortion : bool;
  (** [Date.now()]: the value of the k-th read, in milliseconds. *)
  clock_value : nat -> Z;
  (** The reply of the portion service to its k-th request. *)
  remote_reply : nat -> Request -> RemoteReply;
  (** Whether the k-th operation on the cache store throws. *)
  cache_throws : nat -> bool;
  (** [uuidv4()]: the k-th identifier drawn. *)
  uuid_value : nat -> string;
}.

(** Everything the code can observe or change outside its arguments. *)
Record World := {
  flag_reads : nat;
  clock_reads : nat;
  uuids_drawn : nat;
  requests : list Request;
  cache_ops : list CacheOp;
  store : gmap string (GetPortionResponse * Z);
  metrics : list Metric;
  error_log : list string;
}.

Definition M (A : Type) : Type := World -> Outcome A * World.

Definition ret {A} (a : A) : M A := fun w => (Returned a, w).

Definition throw {A} (e : Exn) : M A := fun w => (Thrown e, w).

Definition bind {A B} (c : M A) (k : A -> M B) : M B :=
  fun w =>
    match c w with
    | (Returned a, w') => k a w'
    | (Thrown e, w') => (Thrown e, w')
    end.

(** [try { body } catch (e) { handler e }] *)
Definition try_catch {A} (body : M A) (handler : Exn -> M A) : M A :=
  fun w =>
    match body w with
    | (Returned a, w') => (Returned a, w')
    | (Thrown e, w') => handler e w'
    end.

Notation "'let*' x ':=' c 'in' k" := (bind c (fun x => k))
  (at level 10, x name, c at level 100, k at level 200).
Notation "c ';;' k" := (bind c (fun _ => k))
  (at level 100, k at level 200, right associativity).

Section Primitives.

Variable env : Collaborators.

(** [metrics.putMetric(name, value, unit)]: fire and forget. *)
Definition putMetricIn (u : MetricUnit) (name : string) (value : Z) : M unit :=
  fun w =>
    (Returned tt,
     {| flag_reads := flag_reads w; clock_reads := clock_reads w;
        uuids_drawn := uuids_drawn w;
        requests := requests w; cache_ops := cache_ops w; store := store w;
        metrics := metrics w ++ [{| metric_name := name; metric_value := value;
                                    metric_unit := u |}];
        error_log := error_log w |}).

(** [metrics.putMetric(name, value)] *)
Definition putMetric (name : string) (value : Z) : M unit :=
  putMetricIn NoUnit name value.

(** [log.error({ e }, msg)] *)
Definition log_error (msg : string) : M unit :=
  fun w =>
    (Returned tt,
     {| flag_reads := flag_reads w; clock_reads := clock_reads w;
        uuids_drawn := uuids_drawn w;
        requests := requests w; cache_ops := cache_ops w; store := store w;
        metrics := metrics w;
        error_log := error_log w ++ [msg] |}).

(** [uraEnablePortion()] *)
Definition uraEnablePortion : M bool :=
  fun w =>
    (Returned (flag_value env (flag_reads w)),
     {| flag_reads := S (flag_reads w); clock_reads := clock_reads w;
        uuids_drawn := uuids_drawn w;
        requests := requests w; cache_ops := cache_ops w; store := store w;
        metrics := metrics w; error_log := error_log w |}).

(** [Date.now()] *)
Definition Date_now : M Z :=
  fun w =>
    (Returned (clock_value env (clock_reads w)),
     {| flag_reads := flag_reads w; clock_reads := S (clock_reads w);
        uuids_drawn := uuids_drawn w;
        requests := requests w; cache_ops := cache_ops w; store := store w;
        metrics := metrics w; error_log := error_log w |}).

(** [uuidv4()] *)
Definition uuidv4 : M string :=
  fun w =>
    (Returned (uuid_value env (uuids_drawn w)),
     {| flag_reads := flag_reads w; clock_reads := clock_reads w;
        uuids_drawn := S (uuids_drawn w);
        requests := requests w; cache_ops := cache_ops w; store := store w;
        metrics := metrics w; error_log := error_log w |}).

(** [portionServiceInstance.get(url, { params })]: resolves to the response
    data or rejects. *)
Definition http_get (url : string) (params : PortionParams) : M GetPortionResponse :=
  fun w =>
    let rq := {| req_url := url; req_params := params |} in
    let w' :=
      {| flag_reads := flag_reads w; clock_reads := clock_reads w;
         uuids_drawn := uuids_drawn w;
         requests := requests w ++ [rq]; cache_ops := cache_ops w;
         store := store w; metrics := metrics w; error_log := error_log w |} in
    match remote_reply env (List.length (requests w)) rq with
    | Replied data => (Returned data, w')
    | Failed fault => (Thrown (AxiosError fault), w')
    end.

(** [portionCache.get(key)]: the stored value, [undefined] when the key is
    not held, or an exception of the store.  Entries expire inside the store
    between calls; that is no action of the fetcher. *)
Definition cache_get (key : string) : M (option GetPortionResponse) :=
  fun w =>
    let w' :=
      {| flag_reads := flag_reads w; clock_reads := clock_reads w;
         uuids_drawn := uuids_drawn w;
         requests := requests w; cache_ops := cache_ops w ++ [OpGet key];
         store := store w; metrics := metrics w; error_log := error_log w |} in
    if cache_throws env (List.length (cache_ops w))
    then (Thrown (CacheError "get"), w')
    else (Returned (fst <$> store w !! key), w').

(** [portionCache.set(key, value, ttl)] *)
Definition cache_set (key : string) (value : GetPortionResponse) (ttl : Z) : M unit :=
  fun w =>
    let ops := (cache_ops w ++ [OpSet key value ttl])%list in
    if cache_throws env (List.length (cache_ops w))
    then (Thrown (CacheError "set"),
          {| flag_reads := flag_reads w; clock_reads := clock_reads w;
             uuids_drawn := uuids_drawn w;
             requests := requests w; cache_ops := ops;
             store := store w; metrics := metrics w; error_log := error_log w |})
    else (Returned tt,
          {| flag_reads := flag_reads w; clock_reads := clock_reads w;
             uuids_drawn := uuids_drawn w;
             requests := requests w; cache_ops := ops;
             store := <[key := (value, ttl)]> (store w);
             metrics := metrics w; error_log := error_log w |}).

End Primitives.

(** ** [PortionFetcher] ([PortionFetcher.ts], lines 53-149) *)

Record PortionFetcher := {
  portionApiUrl : string;
  positiveCacheEntryTtl : Z;
  negativeCacheEntryTtl : Z;
}.

Definition getPortionFullPath (this : PortionFetcher) : string :=
  portionApiUrl this ++ "/portion".

Section GetPortion.

Variable env : Collaborators.
Variable this : PortionFetcher.

(** Lines 113-147: the remote call and its [catch]. *)
Definition fetchPortion
    (tokenInChainId : Z) (tokenInAddress : string)
    (tokenOutChainId : Z) (tokenOutAddress : string) : M GetPortionResponse :=
  try_catch
    (let* beforeGetPortion := Date_now env in
     let* data :=
       http_get env (getPortionFullPath this)
         {| p_tokenInChainId := tokenInChainId;
            p_tokenInAddress := tokenInAddress;
            p_tokenOutChainId := tokenOutChainId;
            p_tokenOutAddress := tokenOutAddress |} in
     let* afterGetPortion := Date_now env in
     putMetricIn Milliseconds "Latency-GetPortion" (afterGetPortion - beforeGetPortion) ;;
     putMetric "PortionFetcherSuccess" 1 ;;
     putMetric "PortionFetcherCacheMiss" 1 ;;
     (if negb (forcePortion env)
      then cache_set env
             (PORTION_CACHE_KEY tokenInChainId tokenInAddress tokenOutChainId tokenOutAddress)
             data
             (match portion data with
              | Some _ => positiveCacheEntryTtl this
              | None => negativeCacheEntryTtl this
              end)
      else ret tt) ;;
     ret data)
    (fun e =>
       log_error "PortionFetcherErr" ;;
       putMetric "PortionFetcherErr" 1 ;;
       putMetric "PortionFetcherCacheMiss" 1 ;;
       ret GET_NO_PORTION_RESPONSE).

(** Lines 102-147: the cache-aside section. *)
Definition cacheAside
    (tokenInChainId : Z) (tokenInAddress : string)
    (tokenOutChainId : Z) (tokenOutAddress : string) : M GetPortionResponse :=
  let* portionFromCache :=
    (if negb (forcePortion env)
     then cache_get env
            (PORTION_CACHE_KEY tokenInChainId tokenInAddress tokenOutChainId tokenOutAddress)
     else ret None) in
  match portionFromCache with
  | Some cached => putMetric "PortionFetcherCacheHit" 1 ;; ret cached
  | None => fetchPortion tokenInChainId tokenInAddress tokenOutChainId tokenOutAddress
  end.

(** Lines 78-148. *)
Definition getPortion
    (tokenInChainId : Z) (tokenInAddress : string)
    (tokenOutChainId : Z) (tokenOutAddress : string) : M GetPortionResponse :=
  putMetric "PortionFetcherRequest" 1 ;;
  let* enabled := uraEnablePortion env in
  if enabled then
    if Js.includes BX_PORTION_ADDRESSES (Js.toLowerCase tokenInAddress)
       && Js.includes BX_PORTION_ADDRESSES (Js.toLowerCase tokenOutAddress)
    then ret BX_PORTION_RESPONSE
    else ret GET_NO_PORTION_RESPONSE
  else
    let* stillEnabled := uraEnablePortion env in
    if negb stillEnabled then
      putMetric "PortionFetcherFlagDisabled" 1 ;;
      ret GET_NO_PORTION_RESPONSE
    else
      cacheAside tokenInChainId tokenInAddress tokenOutChainId tokenOutAddress.

End GetPortion.

(** ** [BigNumber] of ethers, as far as the quote entities use it *)

Module BigNumber.

(** A [BigNumber] holds an integer of arbitrary precision.  One built from
    a string with an upper-case [0X] prefix is returned by [from] but
    cannot be used: every operation on it throws. *)
Inductive t :=
| Integer (z : Z)
| Unusable (source : string).

(** [BigNumberish]: a string to be parsed, a value that is an integer
    already (a [BigNumber] or a [bigint]), or an integral [number]. *)
Inductive BigNumberish :=
| OfString (s : string)
| OfInteger (z : Z)
| OfNumber (n : Z).

Definition digit_value (c : ascii) : option Z :=
  let n := Z.of_N (N_of_ascii c) in
  if ((48 <=? n) && (n <=? 57))%Z then Some (n - 48) else None.

Definition hex_digit_value (c : ascii) : option Z :=
  let n := Z.of_N (N_of_ascii c) in
  if ((48 <=? n) && (n <=? 57))%Z then Some (n - 48)
  else if ((97 <=? n) && (n <=? 102))%Z then Some (n - 87)
  else if ((65 <=? n) && (n <=? 70))%Z then Some (n - 55)
  else None.

Fixpoint read_digits (base : Z) (value : ascii -> option Z)
    (s : string) (acc : Z) : option Z :=
  match s with
  | EmptyString => Some acc
  | String c rest =>
      match value c with
      | Some d => read_digits base value rest (acc * base + d)
      | None => None
      end
  end.

(** One or more digits of the given base. *)
Definition read_number (base : Z) (value : ascii -> option Z) (s : string) : option Z :=
  match s with
  | EmptyString => None
  | _ => read_digits base value s 0
  end.

(** A string matching [/^0x[0-9a-f]+$/i] or [/^[0-9]+$/].  The first
    pattern ignores case, also that of the prefix; the hexadecimal digits
    are read only after a lower-case [0x], and a string with the prefix
    [0X] gives a value that cannot be used. *)
Definition read_unsigned (s : string) : option t :=
  match s with
  | String "0" (String "x" rest) => Integer <$> read_number 16 hex_digit_value rest
  | String "0" (String "X" rest) =>
      (fun _ => Unusable s) <$> read_number 16 hex_digit_value rest
  | _ => Integer <$> read_number 10 digit_value s
  end.

Definition negate (b : t) : t :=
  match b with
  | Integer z => Integer (- z)
  | Unusable source => Unusable (String "-" source)
  end.

(** [BigNumber.from(value)] for a string: [/^-?0x[0-9a-f]+$/i] is taken as
    hexadecimal, [/^-?[0-9]+$/] as decimal, anything else is refused. *)
Definition from_string (s : string) : Outcome t :=
  let parsed :=
    match s with
    | String "-" rest => negate <$> read_unsigned rest
    | _ => read_unsigned s
    end in
  match parsed with
  | Some b => Returned b
  | None => Thrown (InvalidArgument "invalid BigNumber string" s)
  end.

(** [Number.MAX_SAFE_INTEGER], at and beyond which a [number] is refused. *)
Definition MAX_SAFE : Z := 2 ^ 53 - 1.

Definition from (v : BigNumberish) : Outcome t :=
  match v with
  | OfString s => from_string s
  | OfInteger z => Returned (Integer z)
  | OfNumber n =>
      if ((n >=? MAX_SAFE) || (n <=? - MAX_SAFE))%Z
      then Thrown (NumericFault "overflow")
      else Returned (Integer n)
  end.

(** The integer an operation works on ([toBN]). *)
Definition toBN (b : t) : Outcome Z :=
  match b with
  | Integer z => Returned z
  | Unusable source => Thrown (InvalidCharacter source)
  end.

(** [this.gte(other)] for a [BigNumber] [other]. *)
Definition gte (this other : t) : Outcome bool :=
  match toBN this with
  | Returned x =>
      match toBN other with
      | Returned y => Returned (x >=? y)%Z
      | Thrown e => Thrown e
      end
  | Thrown e => Thrown e
  end.

(** [this.gt(seconds)] for the seconds of a [Date], a safe integer. *)
Definition gt (this : t) (seconds : Z) : Outcome bool :=
  match toBN this with
  | Returned x => Returned (x >? seconds)%Z
  | Thrown e => Thrown e
  end.

(** [this.toString()] of a [BigNumber]: its decimal numeral. *)
Definition print (this : t) : Outcome string :=
  match toBN this with
  | Returned z => Returned (Js.number_toString z)
  | Thrown e => Thrown e
  end.

(** [value.toString()] of a [BigNumberish]. *)
Definition toString (v : BigNumberish) : string :=
  match v with
  | OfString s => s
  | OfInteger z => Js.number_toString z
  | OfNumber n => Js.number_toString n
  end.

End BigNumber.

(** ** Quote requests, as far as the quote entities read them *)

(** [TradeType] of [@uniswap/sdk-core]. *)
Inductive TradeType := EXACT_INPUT | EXACT_OUTPUT.

Definition TradeType_eqb (a b : TradeType) : bool :=
  match a, b with
  | EXACT_INPUT, EXACT_INPUT | EXACT_OUTPUT, EXACT_OUTPUT => true
  | _, _ => false
  end.

Module QuoteRequest.

(** [request.info] *)
Record Info := {
  requestId : string;
  tokenInChainId : Z;
  tokenOutChainId : Z;
  tokenIn : string;
  tokenOut : string;
  type : TradeType;
  swapper : option string;
  slippageTolerance : option string;
}.

Record t := { info : Info }.

End QuoteRequest.

(** [PermitDetails] of [@uniswap/permit2-sdk]. *)
Record PermitDetails := {
  pd_token : string;
  pd_amount : BigNumber.BigNumberish;
  pd_expiration : BigNumber.BigNumberish;
  pd_nonce : BigNumber.BigNumberish;
}.

(** ** [ClassicQuote] ([ClassicQuote.ts], lines 51-215)

    The accessors and [getPermitData] are embedded.  The serialisers
    [toJSON] and [toLog] and the [slippage] accessor (a [parseFloat]) take no
    part in the properties below. *)

(** [ClassicQuoteDataJSON]; the members [route], [methodParameters] and
    [permitData], which no accessor below reads, are left out. *)
Record ClassicQuoteDataJSON := {
  j_requestId : string;
  j_quoteId : string;
  amount : string;
  amountDecimals : string;
  quote : string;
  quoteDecimals : string;
  quoteGasAdjusted : string;
  quoteGasAdjustedDecimals : string;
  gasUseEstimate : string;
  gasUseEstimateQuote : string;
  gasUseEstimateQuoteDecimals : string;
  gasUseEstimateUSD : string;
  simulationError : option bool;
  simulationStatus : string;
  j_gasPriceWei : string;
  blockNumber : string;
  routeString : string;
  tradeType : string;
  j_slippage : Z;
  portionBips : option Z;
  portionRecipient : option string;
  portionAmount : option string;
  portionAmountDecimals : option string;
  quoteGasAndPortionAdjusted : option string;
  quoteGasAndPortionAdjustedDecimals : option string;
}.

Module ClassicQuote.

Record t := {
  request : QuoteRequest.t;
  quoteData : ClassicQuoteDataJSON;
  createdAt : string;
  createdAtMs : string;
  quoteId : string;
  allowanceData : option PermitDetails;
}.

Definition tradeTypeOf (this : t) : TradeType :=
  QuoteRequest.type (QuoteRequest.info (request this)).

(** [x ?? y] on an optional string. *)
Definition nullish (x : option string) (y : string) : string :=
  match x with
  | Some s => s
  | None => y
  end.

(** Lines 154-158. *)
Definition amountOut (this : t) : Outcome BigNumber.t :=
  if TradeType_eqb (tradeTypeOf this) EXACT_INPUT
  then BigNumber.from_string (quote (quoteData this))
  else BigNumber.from_string (amount (quoteData this)).

(** Lines 160-164. *)
Definition amountOutGasAdjusted (this : t) : Outcome BigNumber.t :=
  if TradeType_eqb (tradeTypeOf this) EXACT_INPUT
  then BigNumber.from_string (quoteGasAdjusted (quoteData this))
  else BigNumber.from_string (amount (quoteData this)).

(** Lines 166-173. *)
Definition amountOutGasAndPortionAdjusted (this : t) : Outcome BigNumber.t :=
  if TradeType_eqb (tradeTypeOf this) EXACT_INPUT
  then BigNumber.from_string
         (nullish (quoteGasAndPortionAdjusted (quoteData this))
                  (quoteGasAdjusted (quoteData this)))
  else BigNumber.from_string (amount (quoteData this)).

(** Lines 175-179. *)
Definition amountIn (this : t) : Outcome BigNumber.t :=
  if TradeType_eqb (tradeTypeOf this) EXACT_OUTPUT
  then BigNumber.from_string (quote (quoteData this))
  else BigNumber.from_string (amount (quoteData this)).

(** Lines 181-185. *)
Definition amountInGasAdjusted (this : t) : Outcome BigNumber.t :=
  if TradeType_eqb (tradeTypeOf this) EXACT_OUTPUT
  then BigNumber.from_string (quoteGasAdjusted (quoteData this))
  else BigNumber.from_string (amount (quoteData this)).

(** Lines 187-194. *)
Definition amountInGasAndPortionAdjusted (this : t) : Outcome BigNumber.t :=
  if TradeType_eqb (tradeTypeOf this) EXACT_OUTPUT
  then BigNumber.from_string
         (nullish (quoteGasAndPortionAdjusted (quoteData this))
                  (quoteGasAdjusted (quoteData this)))
  else BigNumber.from_string (amount (quoteData this)).

(** Lines 196-198. *)
Definition gasPriceWei (this : t) : string := j_gasPriceWei (quoteData this).

(** Lines 200-202: the one mutation of a quote after its construction. *)
Definition setAllowanceData (data : option PermitDetails) (this : t) : t :=
  {| request := request this; quoteData := quoteData this;
     createdAt := createdAt this; createdAtMs := createdAtMs this;
     quoteId := quoteId this; allowanceData := data |}.

(** Lines 208-214. *)
Definition getPortionBips (this : t) : option Z := portionBips (quoteData this).

Definition getPortionRecipient (this : t) : option string :=
  portionRecipient (quoteData this).

(** [!this.request.info.swapper]: no requester, or an empty one. *)
Definition noSwapper (this : t) : bool :=
  match QuoteRequest.swapper (QuoteRequest.info (request this)) with
  | Some s => negb (Js.truthy s)
  | None => true
  end.

(** [this.allowanceData?.nonce.toString() || '0'] *)
Definition nonceOrZero (this : t) : string :=
  match allowanceData this with
  | Some a =>
      let s := BigNumber.toString (pd_nonce a) in
      if Js.truthy s then s else "0"
  | None => "0"
  end.

Definition lift {A} (o : Outcome A) : M A := fun w => (o, w).

Section Effectful.

Variable env : Collaborators.

(** The permit construction of [lib/util/permit2], taken as given:
    token, chain id and nonce to permit data. *)
Variable PermitSingleData : Type.
Variable createPermitData : string -> Z -> string -> PermitSingleData.

(** Lines 141-143: the conjuncts that follow [this.allowanceData &&],
    evaluated left to right with the shortcut of [&&]; the receiver of a
    comparison is built before its argument is evaluated.  The seconds value
    [Math.floor(new Date().getTime() / 1000)] of a [Date] is a safe integer,
    on which [BigNumber.from] is the identity. *)
Definition allowanceSuffices (this : t) (a : PermitDetails) : M bool :=
  let* allowed := lift (BigNumber.from (pd_amount a)) in
  let* needed := lift (amountIn this) in
  let* enough := lift (BigNumber.gte allowed needed) in
  if (enough : bool) then
    let* expiration := lift (BigNumber.from (pd_expiration a)) in
    let* nowMs := Date_now env in
    lift (BigNumber.gt expiration (nowMs / 1000))
  else ret false.

(** Lines 138-152. *)
Definition getPermitData (this : t) : M (option PermitSingleData) :=
  let* nothingToPermit :=
    (if noSwapper this then ret true
     else match allowanceData this with
          | Some a => allowanceSuffices this a
          | None => ret false
          end) in
  if (nothingToPermit : bool) then ret None
  else ret (Some (createPermitData
                    (QuoteRequest.tokenIn (QuoteRequest.info (request this)))
                    (QuoteRequest.tokenInChainId (QuoteRequest.info (request this)))
                    (nonceOrZero this))).

(** Modelled from the spec: [currentTimestampInMs] and
    [timestampInMstoSeconds] of [lib/util/time], which are not under src/;
    the creation time in milliseconds as a string, and the same in seconds. *)
Definition currentTimestampInMs : M string :=
  let* ms := Date_now env in ret (Js.number_toString ms).

Definition timestampInMstoSeconds (ms : Z) : string :=
  Js.number_toString (ms / 1000).

(** [parseInt] on a printed timestamp. *)
Definition parseInt (s : string) : Z :=
  match BigNumber.read_number 10 BigNumber.digit_value s with
  | Some z => z
  | None => 0
  end.

(** Lines 86-96: the field initialisers, then the constructor body. *)
Definition fromResponseBody (request : QuoteRequest.t) (body : ClassicQuoteDataJSON) : M t :=
  let* id := uuidv4 env in
  let* ms := currentTimestampInMs in
  ret {| request := request; quoteData := body;
         createdAt := timestampInMstoSeconds (parseInt ms);
         createdAtMs := ms;
         quoteId := id; allowanceData := None |}.

End Effectful.

End ClassicQuote.

(** ** Quote parsing ([quoteResponse.ts], lines 72-94) *)

Section QuoteResponse.

Variable env : Collaborators.

(** The [RoutingType] enum of [lib/constants]: its two members. *)
Variable RoutingType_DUTCH_LIMIT RoutingType_CLASSIC : string.

(** The limit-order entity of [lib/entities], taken as given, and the
    payload type [ReceivedQuoteData] with its unchecked view as a classic
    payload ([quote as ClassicQuoteDataJSON]). *)
Variable DutchLimitQuote : Type.
Variable ReceivedQuoteData : Type.
Variable DutchLimitQuote_fromResponseBody :
  QuoteRequest.t -> ReceivedQuoteData -> M DutchLimitQuote.
Variable asClassicQuoteDataJSON : ReceivedQuoteData -> ClassicQuoteDataJSON.

Inductive Quote :=
| QuoteDutchLimit (q : DutchLimitQuote)
| QuoteClassic (q : ClassicQuote.t).

(** Lines 82-94.  [routing] is the tag as it arrives at run time. *)
Definition parseQuote (request : QuoteRequest.t) (routing : string)
    (quote : ReceivedQuoteData) : M Quote :=
  if String.eqb routing RoutingType_DUTCH_LIMIT then
    let* q := DutchLimitQuote_fromResponseBody request quote in
    ret (QuoteDutchLimit q)
  else if String.eqb routing RoutingType_CLASSIC then
    let* q := ClassicQuote.fromResponseBody env request (asClassicQuoteDataJSON quote) in
    ret (QuoteClassic q)
  else
    throw (Error ("Unknown routing type: " ++ routing)).

(** Lines 72-80. *)
Definition buildQuoteResponse (routing : string) (quote : ReceivedQuoteData)
    (request : QuoteRequest.t) : M Quote :=
  parseQuote request routing quote.

End QuoteResponse.

(** ** Vocabulary of the statements *)

(** A call left the cache store and the portion service alone: no request
    was sent, no store operation was attempted, the store holds what it held. *)
Definition untouched (w w' : World) : Prop :=
  requests w' = requests w /\ cache_ops w' = cache_ops w /\ store w' = store w.

(** The world in which [getPortion] enters its cache-aside section: the
    request counter was emitted and the flag was read twice. *)
Definition at_cache_aside (w : World) : World :=
  {| flag_reads := S (S (flag_reads w)); clock_reads := clock_reads w;
     uuids_drawn := uuids_drawn w;
     requests := requests w; cache_ops := cache_ops w; store := store w;
     metrics := metrics w ++ [{| metric_name := "PortionFetcherRequest"; metric_value := 1;
                                 metric_unit := NoUnit |}];
     error_log := error_log w |}.

(** The world after a [get] on the store that did not throw. *)
Definition after_get (key : string) (w : World) : World :=
  {| flag_reads := flag_reads w; clock_reads := clock_reads w;
     uuids_drawn := uuids_drawn w;
     requests := requests w; cache_ops := (cache_ops w ++ [OpGet key])%list;
     store := store w; metrics := metrics w; error_log := error_log w |}.

(** The request that [getPortion] sends for its arguments. *)
Definition portionRequest (this : PortionFetcher)
    (tokenInChainId : Z) (tokenInAddress : string)
    (tokenOutChainId : Z) (tokenOutAddress : string) : Request :=
  {| req_url := getPortionFullPath this;
     req_params := {| p_tokenInChainId := tokenInChainId;
                      p_tokenInAddress := tokenInAddress;
                      p_tokenOutChainId := tokenOutChainId;
                      p_tokenOutAddress := tokenOutAddress |} |}.

(** The TTL under which a response is stored (line 135). *)
Definition entryTtl (this : PortionFetcher) (data : GetPortionResponse) : Z :=
  match portion data with
  | Some _ => positiveCacheEntryTtl this
  | None => negativeCacheEntryTtl this
  end.

(** ** Concrete collaborators, for evaluation *)

Definition empty_world : World :=
  {| flag_reads := 0; clock_reads := 0; uuids_drawn := 0;
     requests := []; cache_ops := []; store := ∅;
     metrics := []; error_log := [] |}.

(** Collaborators that follow a script: the flag reads, the faults of the
    store operations and the reply of the service are given in advance. *)
Definition scripted (flags : list bool) (force : bool) (reply : RemoteReply)
    (faults : list bool) : Collaborators :=
  {| flag_value := fun k => nth k flags false;
     forcePortion := force;
     clock_value := fun k => 1700000000000 + 25 * Z.of_nat k;
     remote_reply := fun _ _ => reply;
     cache_throws := fun k => nth k faults false;
     uuid_value := fun _ => "3f2b8c1e-0000-4000-8000-000000000000" |}.

Definition sample_fetcher : PortionFetcher :=
  {| portionApiUrl := "https://portion.example";
     positiveCacheEntryTtl := 600;
     negativeCacheEntryTtl := 60 |}.

Definition USDC : string := "0xA0b86991c6218b36c1d19D4a2e9Eb0cE3606eB48".
Definition ETH : string := "0x0000000000000000000000000000000000000000".
Definition UNI : string := "0x1f9840a85d5aF5bf1D1762F925BDADdC4201F984".

(** ** Vocabulary for permit data *)

(** The recorded allowance covers the quote at the given time in seconds:
    its amount is at least the quote's [amountIn] and its expiration lies
    strictly after that time. *)
Definition allowanceCovers (q : ClassicQuote.t) (a : PermitDetails)
    (nowSeconds : Z) : Prop :=
  exists allowed needed expiration : Z,
    BigNumber.from (pd_amount a) = Returned (BigNumber.Integer allowed)
    /\ ClassicQuote.amountIn q = Returned (BigNumber.Integer needed)
    /\ BigNumber.from (pd_expiration a) = Returned (BigNumber.Integer expiration)
    /\ needed <= allowed
    /\ nowSeconds < expiration.

(** [getPermitData] has nothing to permit. *)
Definition nothingToPermit (q : ClassicQuote.t) (nowSeconds : Z) : Prop :=
  ClassicQuote.noSwapper q = true
  \/ exists a, ClassicQuote.allowanceData q = Some a /\ allowanceCovers q a nowSeconds.

(** A value that [BigNumber.from] turns into an integer that can be used. *)
Definition isInteger (v : BigNumber.BigNumberish) : Prop :=
  exists z, BigNumber.from v = Returned (BigNumber.Integer z).

(** The comparison of [getPermitData] can be evaluated: when an allowance
    is recorded, its amount and the quote's [amountIn] are integers and, if
    the amount suffices, so is the expiration. *)
Definition numericAllowance (q : ClassicQuote.t) : Prop :=
  forall a, ClassicQuote.allowanceData q = Some a ->
    exists allowed needed : Z,
      BigNumber.from (pd_amount a) = Returned (BigNumber.Integer allowed)
      /\ ClassicQuote.amountIn q = Returned (BigNumber.Integer needed)
      /\ (needed <= allowed -> isInteger (pd_expiration a)).

(** ** Concrete quotes, for evaluation *)

Definition sample_info (tradeType : TradeType) (swapper : option string) : QuoteRequest.Info :=
  {| QuoteRequest.requestId := "request-1";
     QuoteRequest.tokenInChainId := 1;
     QuoteRequest.tokenOutChainId := 1;
     QuoteRequest.tokenIn := "0xA0b86991c6218b36c1d19D4a2e9Eb0cE3606eB48";
     QuoteRequest.tokenOut := "0xC02aaA39b223FE8D0A0e5C4F27eAD9083C756Cc2";
     QuoteRequest.type := tradeType;
     QuoteRequest.swapper := swapper;
     QuoteRequest.slippageTolerance := None |}.

Definition sample_body (amount quote quoteGasAdjusted : string)
    (quoteGasAndPortionAdjusted : option string) : ClassicQuoteDataJSON :=
  {| j_requestId := "request-1"; j_quoteId := "quote-1";
     amount := amount; amountDecimals := "";
     quote := quote; quoteDecimals := "";
     quoteGasAdjusted := quoteGasAdjusted; quoteGasAdjustedDecimals := "";
     gasUseEstimate := "113000"; gasUseEstimateQuote := "2";
     gasUseEstimateQuoteDecimals := ""; gasUseEstimateUSD := "";
     simulationError := None; simulationStatus := "UNATTEMPTED";
     j_gasPriceWei := "30000000000"; blockNumber := "18000000";
     routeString := ""; tradeType := "EXACT_INPUT"; j_slippage := 0;
     portionBips := None; portionRecipient := None;
     portionAmount := None; portionAmountDecimals := None;
     quoteGasAndPortionAdjusted := quoteGasAndPortionAdjusted;
     quoteGasAndPortionAdjustedDecimals := None |}.

Definition sample_quote (tradeType : TradeType) (swapper : option string)
    (body : ClassicQuoteDataJSON) (allowance : option PermitDetails) : ClassicQuote.t :=
  ClassicQuote.setAllowanceData allowance
    {| ClassicQuote.request := {| QuoteRequest.info := sample_info tradeType swapper |};
       ClassicQuote.quoteData := body;
       ClassicQuote.createdAt := "1700000000";
       ClassicQuote.createdAtMs := "1700000000000";
       ClassicQuote.quoteId := "3f2b8c1e-0000-4000-8000-000000000000";
       ClassicQuote.allowanceData := None |}.

Definition sample_allowance (amount : string) (expiration nonce : Z) : PermitDetails :=
  {| pd_token := "0xA0b86991c6218b36c1d19D4a2e9Eb0cE3606eB48";
     pd_amount := BigNumber.OfString amount;
     pd_expiration := BigNumber.OfInteger expiration;
     pd_nonce := BigNumber.OfInteger nonce |}.

(** Permit data stood for by the arguments it is built from. *)
Definition permitOf (token : string) (chainId : Z) (nonce : string) : string * Z * string :=
  (token, chainId, nonce).

(** ** The log record of a classic quote ([ClassicQuote.ts], lines 109-136
    and 204-206; [LogJSON] of the entities' index, lines 12-42) *)

(** Sequencing of calls that may throw and touch nothing else. *)
Definition andThen {A B} (o : Outcome A) (k : A -> Outcome B) : Outcome B :=
  match o with
  | Returned a => k a
  | Thrown e => Thrown e
  end.

(** An accessor followed by [toString()]. *)
Definition printed (amount : Outcome BigNumber.t) : Outcome string :=
  andThen amount BigNumber.print.

Module LogJSON.

Record t (number : Type) := {
  quoteId : string;
  requestId : string;
  tokenIn : string;
  tokenOut : string;
  amountIn : string;
  amountOut : string;
  endAmountIn : string;
  endAmountOut : string;
  amountInGasAdjusted : option string;
  amountInGasAndPortionAdjusted : option string;
  amountOutGasAdjusted : option string;
  amountOutGasAndPortionAdjusted : option string;
  tokenInChainId : Z;
  tokenOutChainId : Z;
  swapper : string;
  routing : string;
  createdAt : string;
  createdAtMs : string;
  slippage : number;
  filler : option string;
  gasPriceWei : option string;
  portionBips : option Z;
  portionRecipient : option string;
  portionAmount : option string;
  portionAmountDecimals : option string;
  quoteGasAndPortionAdjusted : option string;
  quoteGasAndPortionAdjustedDecimals : option string;
  portionAmountOutStart : option string;
  portionAmountOutEnd : option string;
}.

End LogJSON.

Section Logging.

(** Floating-point numbers are not interpreted: the type of [number]
    values, [parseFloat] and the literal [-1] are taken as given, and so is
    the lookup [RoutingType[tag]] in the enum of [lib/constants]. *)
Variable number : Type.
Variable parseFloat : string -> number.
Variable minusOne : number.
Variable RoutingType_CLASSIC : string.
Variable RoutingType_lookup : string -> string.

(** Lines 204-206. *)
Definition slippage (this : ClassicQuote.t) : number :=
  match QuoteRequest.slippageTolerance (QuoteRequest.info (ClassicQuote.request this)) with
  | Some s => if Js.truthy s then parseFloat s else minusOne
  | None => minusOne
  end.

(** Lines 109-136: the members are evaluated in the order in which they
    are written; each accessor may throw. *)
Definition toLog (this : ClassicQuote.t) : Outcome (LogJSON.t number) :=
  let info := QuoteRequest.info (ClassicQuote.request this) in
  let data := ClassicQuote.quoteData this in
  andThen (printed (ClassicQuote.amountIn this)) (fun amountIn =>
  andThen (printed (ClassicQuote.amountIn this)) (fun endAmountIn =>
  andThen (printed (ClassicQuote.amountOut this)) (fun amountOut =>
  andThen (printed (ClassicQuote.amountOut this)) (fun endAmountOut =>
  andThen (printed (ClassicQuote.amountInGasAdjusted this)) (fun amountInGasAdjusted =>
  andThen (printed (ClassicQuote.amountOutGasAdjusted this)) (fun amountOutGasAdjusted =>
  Returned
    {| LogJSON.quoteId := ClassicQuote.quoteId this;
       LogJSON.requestId := QuoteRequest.requestId info;
       LogJSON.tokenInChainId := QuoteRequest.tokenInChainId info;
       LogJSON.tokenOutChainId := QuoteRequest.tokenOutChainId info;
       LogJSON.tokenIn := QuoteRequest.tokenIn info;
       LogJSON.tokenOut := QuoteRequest.tokenOut info;
       LogJSON.amountIn := amountIn;
       LogJSON.endAmountIn := endAmountIn;
       LogJSON.amountOut := amountOut;
       LogJSON.endAmountOut := endAmountOut;
       LogJSON.amountInGasAdjusted := Some amountInGasAdjusted;
       LogJSON.amountOutGasAdjusted := Some amountOutGasAdjusted;
       LogJSON.amountInGasAndPortionAdjusted := None;
       LogJSON.amountOutGasAndPortionAdjusted := None;
       LogJSON.swapper := "";
       LogJSON.routing := RoutingType_lookup RoutingType_CLASSIC;
       LogJSON.slippage := slippage this;
       LogJSON.createdAt := ClassicQuote.createdAt this;
       LogJSON.createdAtMs := ClassicQuote.createdAtMs this;
       LogJSON.filler := None;
       LogJSON.gasPriceWei := Some (ClassicQuote.gasPriceWei this);
       LogJSON.portionBips := portionBips data;
       LogJSON.portionRecipient := portionRecipient data;
       LogJSON.portionAmount := portionAmount data;
       LogJSON.portionAmountDecimals := portionAmountDecimals data;
       LogJSON.quoteGasAndPortionAdjusted := quoteGasAndPortionAdjusted data;
       LogJSON.quoteGasAndPortionAdjustedDecimals :=
         quoteGasAndPortionAdjustedDecimals data;
       LogJSON.portionAmountOutStart := None;
       LogJSON.portionAmountOutEnd := None |})))))).

End Logging.

(** ** Further vocabulary *)

(** A string that [BigNumber.from] reads as an integer that can be used:
    a decimal numeral, or a hexadecimal one after a lower-case [0x], with
    or without a sign. *)
Definition isIntegerString (s : string) : Prop :=
  exists z, BigNumber.from_string s = Returned (BigNumber.Integer z).

(** No hyphen occurs in the string. *)
Fixpoint hyphen_free (s : string) : bool :=
  match s with
  | EmptyString => true
  | String c rest => negb (Ascii.eqb c "-") && hyphen_free rest
  end.

(** How often a counter was emitted. *)
Definition count_metric (name : string) (ms : list Metric) : nat :=
  List.length (List.filter (fun m => String.eqb (metric_name m) name) ms).

(** A counter, as [putMetric(name, 1)] emits it. *)
Definition counter (name : string) : Metric :=
  {| metric_name := name; metric_value := 1; metric_unit := NoUnit |}.

(** What was recorded before a call is still there after it, in the same
    order: requests, store operations, metrics and log lines are only
    appended, the counters of reads only grow and no identifier is drawn. *)
Definition extends (w w' : World) : Prop :=
  requests w `prefix_of` requests w'
  /\ cache_ops w `prefix_of` cache_ops w'
  /\ metrics w `prefix_of` metrics w'
  /\ error_log w `prefix_of` error_log w'
  /\ (flag_reads w <= flag_reads w')%nat
  /\ (clock_reads w <= clock_reads w')%nat
  /\ uuids_drawn w' = uuids_drawn w.

(** * Properties *)

(** ** The cache key *)

Lemma lower_char_idempotent (c : ascii) :
  Js.lower_char (Js.lower_char c) = Js.lower_char c.
Proof. destruct c as [[] [] [] [] [] [] [] []]; reflexivity. Qed.

Lemma same_letter_lower (c d : ascii) :
  Js.same_letter c d = true -> Js.lower_char c = Js.lower_char d.
Proof.
  unfold Js.same_letter.
  rewrite !orb_true_iff, !andb_true_iff.
  intros [[Heq | [_ Heq]] | [_ Heq]]; apply Ascii.eqb_eq in Heq; subst;
    auto using lower_char_idempotent.
Qed.

Lemma eq_caseless_toLowerCase (s t : string) :
  Js.eq_caseless s t = true -> Js.toLowerCase s = Js.toLowerCase t.
Proof.
  revert t; induction s as [| c s IH]; intros [| d t]; simpl; try discriminate.
  - reflexivity.
  - rewrite andb_true_iff. intros [Hc Hs].
    f_equal; [apply same_letter_lower, Hc | apply IH, Hs].
Qed.

Lemma lower_char_upper_inv (c : ascii) :
  Js.is_upper c = true ->
  ascii_of_N (N_of_ascii (Js.lower_char c) - 32) = c.
Proof.
  destruct c as [[] [] [] [] [] [] [] []]; first [ reflexivity | discriminate ].
Qed.

Lemma lower_char_same_letter (c d : ascii) :
  Js.lower_char c = Js.lower_char d -> Js.same_letter c d = true.
Proof.
  intros H. unfold Js.same_letter.
  destruct (Js.is_upper c) eqn:Hc, (Js.is_upper d) eqn:Hd; cbn [andb orb].
  - rewrite <- (lower_char_upper_inv c Hc), <- (lower_char_upper_inv d Hd), H.
    rewrite Ascii.eqb_refl. reflexivity.
  - unfold Js.lower_char at 2 in H. rewrite Hd in H. subst d.
    rewrite Ascii.eqb_refl. destruct (Ascii.eqb c (Js.lower_char c)); reflexivity.
  - unfold Js.lower_char at 1 in H. rewrite Hc in H. subst c.
    rewrite Ascii.eqb_refl. destruct (Ascii.eqb (Js.lower_char d) d); reflexivity.
  - unfold Js.lower_char in H. rewrite Hc, Hd in H. subst d.
    rewrite Ascii.eqb_refl. reflexivity.
Qed.

(** The converse, so that [eq_caseless] is exactly the equivalence that
    lower-casing induces. *)
Lemma toLowerCase_eq_caseless (s t : string) :
  Js.toLowerCase s = Js.toLowerCase t -> Js.eq_caseless s t = true.
Proof.
  revert t; induction s as [| c s IH]; intros [| d t]; simpl; try discriminate.
  - reflexivity.
  - intros H. injection H as Hc Hs.
    rewrite (IH _ Hs), (lower_char_same_letter _ _ Hc). reflexivity.
Qed.

(** C10. The cache key is insensitive to the letter casing of both address
    arguments: equal chain ids and addresses equal up to casing give equal
    keys. *)
Theorem PORTION_CACHE_KEY_caseless
    (tokenInChainId tokenOutChainId : Z) (a a' b b' : string) :
  Js.eq_caseless a a' = true ->
  Js.eq_caseless b b' = true ->
  PORTION_CACHE_KEY tokenInChainId a tokenOutChainId b
  = PORTION_CACHE_KEY tokenInChainId a' tokenOutChainId b'.
Proof.
  intros Ha Hb. unfold PORTION_CACHE_KEY.
  rewrite (eq_caseless_toLowerCase _ _ Ha), (eq_caseless_toLowerCase _ _ Hb).
  reflexivity.
Qed.

Lemma PORTION_CACHE_KEY_caseless_witness :
  PORTION_CACHE_KEY 1 "0xABC" 1 "0xdef" = PORTION_CACHE_KEY 1 "0xabc" 1 "0xDEF".
Proof. apply PORTION_CACHE_KEY_caseless; reflexivity. Defined.

Example PORTION_CACHE_KEY_example :
  PORTION_CACHE_KEY 1 "0xABC" 1 "0xdef" = "PortionFetcher-1-0xabc-1-0xdef".
Proof. reflexivity. Qed.

(** ** The decision tree of [getPortion] *)

Section GetPortionProperties.

Variable env : Collaborators.
Variable this : PortionFetcher.
Variables tokenInChainId tokenOutChainId : Z.
Variables tokenInAddress tokenOutAddress : string.

Local Abbreviation call := (getPortion env this tokenInChainId tokenInAddress
                    tokenOutChainId tokenOutAddress).

(** First read enabled: the allowlist alone decides, nothing else is used. *)
Lemma getPortion_enabled (w : World) :
  flag_value env (flag_reads w) = true ->
  fst (call w)
  = Returned
      (if Js.includes BX_PORTION_ADDRESSES (Js.toLowerCase tokenInAddress)
          && Js.includes BX_PORTION_ADDRESSES (Js.toLowerCase tokenOutAddress)
       then BX_PORTION_RESPONSE else GET_NO_PORTION_RESPONSE)
  /\ untouched w (snd (call w)).
Proof.
  intros Hflag. unfold untouched, getPortion, bind, putMetric, putMetricIn, uraEnablePortion.
  cbn [flag_reads]. rewrite Hflag.
  destruct (Js.includes BX_PORTION_ADDRESSES (Js.toLowerCase tokenInAddress)
            && Js.includes BX_PORTION_ADDRESSES (Js.toLowerCase tokenOutAddress));
    unfold ret; cbn [fst snd requests cache_ops store]; auto.
Qed.

(** Both reads disabled: no-portion, nothing else is used. *)
Lemma getPortion_disabled (w : World) :
  flag_value env (flag_reads w) = false ->
  flag_value env (S (flag_reads w)) = false ->
  fst (call w) = Returned GET_NO_PORTION_RESPONSE /\ untouched w (snd (call w)).
Proof.
  intros H1 H2. unfold untouched, getPortion, bind, putMetric, putMetricIn, uraEnablePortion.
  cbn [flag_reads]. rewrite H1. cbn [flag_reads]. rewrite H2.
  unfold ret; cbn [negb fst snd requests cache_ops store]; auto.
Qed.

(** First read disabled, second enabled: the call is its cache-aside
    section. *)
Lemma getPortion_toggled (w : World) :
  flag_value env (flag_reads w) = false ->
  flag_value env (S (flag_reads w)) = true ->
  call w = cacheAside env this tokenInChainId tokenInAddress
             tokenOutChainId tokenOutAddress (at_cache_aside w).
Proof.
  intros H1 H2. unfold getPortion, bind, putMetric, putMetricIn, uraEnablePortion.
  cbn [flag_reads]. rewrite H1. cbn [flag_reads]. rewrite H2. reflexivity.
Qed.

End GetPortionProperties.

(** C1. With the flag read as enabled and both addresses, lower-cased, on
    the allowlist, [getPortion] returns the constant flat-fee response
    (5 bips, the fixed recipient, type Flat), whatever the other
    collaborators would answer; it sends no request to the portion service
    and performs no operation on the cache store, which keeps its contents. *)
Theorem getPortion_allowlisted_flat_response
    (env : Collaborators) (this : PortionFetcher)
    (tokenInChainId : Z) (tokenInAddress : string)
    (tokenOutChainId : Z) (tokenOutAddress : string) (w : World) :
  flag_value env (flag_reads w) = true ->
  Js.includes BX_PORTION_ADDRESSES (Js.toLowerCase tokenInAddress) = true ->
  Js.includes BX_PORTION_ADDRESSES (Js.toLowerCase tokenOutAddress) = true ->
  let result := getPortion env this tokenInChainId tokenInAddress
                  tokenOutChainId tokenOutAddress w in
  fst result
  = Returned {| hasPortion := true;
                portion := Some {| bips := 5;
                                   recipient := "0x27213E28D7fDA5c57Fe9e5dD923818DBCcf71c47";
                                   type := Flat |} |}
  /\ untouched w (snd result).
Proof.
  intros Hflag Hin Hout result.
  destruct (getPortion_enabled env this tokenInChainId tokenOutChainId
              tokenInAddress tokenOutAddress w Hflag) as [Hres Hun].
  rewrite Hin, Hout in Hres. split; [exact Hres | exact Hun].
Qed.

Lemma getPortion_allowlisted_flat_response_witness :
  let result := getPortion (scripted [true] false (Failed NetworkError) [true; true])
                  sample_fetcher 1 ETH 1 USDC empty_world in
  fst result = Returned BX_PORTION_RESPONSE /\ untouched empty_world (snd result).
Proof.
  apply (getPortion_allowlisted_flat_response
           (scripted [true] false (Failed NetworkError) [true; true])
           sample_fetcher 1 ETH 1 USDC empty_world); reflexivity.
Defined.

(** C2. With the flag read as enabled and at least one address, lower-cased,
    off the allowlist, [getPortion] returns the no-portion response, sends
    no request to the portion service and performs no operation on the
    cache store: with the flag enabled the cache-aside path is not reached. *)
Theorem getPortion_not_allowlisted_no_portion
    (env : Collaborators) (this : PortionFetcher)
    (tokenInChainId : Z) (tokenInAddress : string)
    (tokenOutChainId : Z) (tokenOutAddress : string) (w : World) :
  flag_value env (flag_reads w) = true ->
  Js.includes BX_PORTION_ADDRESSES (Js.toLowerCase tokenInAddress) = false
  \/ Js.includes BX_PORTION_ADDRESSES (Js.toLowerCase tokenOutAddress) = false ->
  let result := getPortion env this tokenInChainId tokenInAddress
                  tokenOutChainId tokenOutAddress w in
  fst result = Returned GET_NO_PORTION_RESPONSE /\ untouched w (snd result).
Proof.
  intros Hflag Hout result.
  destruct (getPortion_enabled env this tokenInChainId tokenOutChainId
              tokenInAddress tokenOutAddress w Hflag) as [Hres Hun].
  split; [| exact Hun].
  subst result. rewrite Hres.
  destruct Hout as [-> | ->]; [| rewrite andb_false_r]; reflexivity.
Qed.

Lemma getPortion_not_allowlisted_no_portion_witness :
  let result := getPortion
                  (scripted [true; true] false (Replied BX_PORTION_RESPONSE) [])
                  sample_fetcher 1 ETH 1 UNI empty_world in
  fst result = Returned GET_NO_PORTION_RESPONSE /\ untouched empty_world (snd result).
Proof.
  apply (getPortion_not_allowlisted_no_portion
           (scripted [true; true] false (Replied BX_PORTION_RESPONSE) [])
           sample_fetcher 1 ETH 1 UNI empty_world);
    [reflexivity | right; reflexivity].
Defined.

(** C3. When the two reads of the flag within a call give the same value,
    the call returns before its cache-aside section: it returns a response,
    no request is sent and no operation on the cache store is performed.
    A call that does send a request or operate on the store read the flag
    as disabled first and as enabled second. *)
Theorem getPortion_cache_aside_needs_toggle
    (env : Collaborators) (this : PortionFetcher)
    (tokenInChainId : Z) (tokenInAddress : string)
    (tokenOutChainId : Z) (tokenOutAddress : string) (w : World) :
  let first := flag_value env (flag_reads w) in
  let second := flag_value env (S (flag_reads w)) in
  let result := getPortion env this tokenInChainId tokenInAddress
                  tokenOutChainId tokenOutAddress w in
  (first = second ->
   (exists r, fst result = Returned r) /\ untouched w (snd result))
  /\ (~ untouched w (snd result) -> first = false /\ second = true).
Proof.
  intros first second result.
  assert (Hsame : first = second ->
                  (exists r, fst result = Returned r) /\ untouched w (snd result)).
  { subst first second result. intros Heq.
    destruct (flag_value env (flag_reads w)) eqn:H1.
    - destruct (getPortion_enabled env this tokenInChainId tokenOutChainId
                  tokenInAddress tokenOutAddress w H1) as [Hr Hu].
      split; [eexists; exact Hr | exact Hu].
    - destruct (getPortion_disabled env this tokenInChainId tokenOutChainId
                  tokenInAddress tokenOutAddress w H1 (eq_sym Heq)) as [Hr Hu].
      split; [eexists; exact Hr | exact Hu]. }
  split; [exact Hsame |].
  intros Htouched.
  destruct first eqn:H1, second eqn:H2;
    try (exfalso; apply Htouched, Hsame; reflexivity).
  - exfalso. apply Htouched. subst result. apply getPortion_enabled. exact H1.
  - auto.
Qed.

Lemma getPortion_cache_aside_needs_toggle_witness :
  let result := getPortion (scripted [false; false] false (Replied BX_PORTION_RESPONSE) [])
                  sample_fetcher 1 ETH 1 USDC empty_world in
  (exists r, fst result = Returned r) /\ untouched empty_world (snd result).
Proof.
  apply (getPortion_cache_aside_needs_toggle
           (scripted [false; false] false (Replied BX_PORTION_RESPONSE) [])
           sample_fetcher 1 ETH 1 USDC empty_world).
  reflexivity.
Defined.

(** ** The cache-aside section *)

Section CacheAsideProperties.

Variable env : Collaborators.
Variable this : PortionFetcher.
Variables tokenInChainId tokenOutChainId : Z.
Variables tokenInAddress tokenOutAddress : string.

Local Abbreviation key :=
  (PORTION_CACHE_KEY tokenInChainId tokenInAddress tokenOutChainId tokenOutAddress).
Local Abbreviation rq :=
  (portionRequest this tokenInChainId tokenInAddress tokenOutChainId tokenOutAddress).
Local Abbreviation fetch :=
  (fetchPortion env this tokenInChainId tokenInAddress tokenOutChainId tokenOutAddress).
Local Abbreviation aside :=
  (cacheAside env this tokenInChainId tokenInAddress tokenOutChainId tokenOutAddress).

Ltac run_fetch :=
  unfold fetchPortion, try_catch, bind, Date_now, http_get, putMetric, putMetricIn,
         log_error, cache_set, ret, portionRequest in *;
  cbn [flag_reads clock_reads uuids_drawn requests cache_ops store metrics
       error_log fst snd] in *.

(** The remote call never lets an exception out. *)
Lemma fetchPortion_returns (w : World) : exists r, fst (fetch w) = Returned r.
Proof.
  run_fetch.
  destruct (remote_reply env _ _); [| eauto].
  destruct (negb (forcePortion env)); [| eauto].
  destruct (cache_throws env _); eauto.
Qed.

(** A failed remote call gives no-portion and stores nothing. *)
Lemma fetchPortion_remote_failure (w : World) (fault : RemoteFault) :
  remote_reply env (List.length (requests w)) rq = Failed fault ->
  fst (fetch w) = Returned GET_NO_PORTION_RESPONSE
  /\ store (snd (fetch w)) = store w
  /\ requests (snd (fetch w)) = (requests w ++ [rq])%list.
Proof. intros H. run_fetch. rewrite H. auto. Qed.

(** A reply in force mode is returned and not stored. *)
Lemma fetchPortion_forced (w : World) (data : GetPortionResponse) :
  remote_reply env (List.length (requests w)) rq = Replied data ->
  forcePortion env = true ->
  fst (fetch w) = Returned data
  /\ store (snd (fetch w)) = store w
  /\ cache_ops (snd (fetch w)) = cache_ops w
  /\ requests (snd (fetch w)) = (requests w ++ [rq])%list.
Proof.
  intros H Hforce. run_fetch. rewrite H, Hforce. cbn. auto.
Qed.

(** A reply outside force mode is stored under the key with the TTL of
    its kind, and returned. *)
Lemma fetchPortion_stores (w : World) (data : GetPortionResponse) :
  remote_reply env (List.length (requests w)) rq = Replied data ->
  forcePortion env = false ->
  cache_throws env (List.length (cache_ops w)) = false ->
  fst (fetch w) = Returned data
  /\ store (snd (fetch w)) = <[key := (data, entryTtl this data)]> (store w)
  /\ requests (snd (fetch w)) = (requests w ++ [rq])%list
  /\ cache_ops (snd (fetch w))
     = (cache_ops w ++ [OpSet key data (entryTtl this data)])%list.
Proof.
  intros H Hforce Hset. run_fetch. rewrite H, Hforce. cbn [negb].
  cbn [flag_reads clock_reads uuids_drawn requests cache_ops store metrics
       error_log fst snd].
  rewrite Hset. cbn [store requests cache_ops fst snd]. auto.
Qed.

(** An exception of the store's [set] is caught: no-portion, nothing stored. *)
Lemma fetchPortion_set_failure (w : World) (data : GetPortionResponse) :
  remote_reply env (List.length (requests w)) rq = Replied data ->
  forcePortion env = false ->
  cache_throws env (List.length (cache_ops w)) = true ->
  fst (fetch w) = Returned GET_NO_PORTION_RESPONSE
  /\ store (snd (fetch w)) = store w.
Proof.
  intros H Hforce Hset. run_fetch. rewrite H, Hforce. cbn [negb].
  cbn [flag_reads clock_reads uuids_drawn requests cache_ops store metrics
       error_log fst snd].
  rewrite Hset. cbn [store requests cache_ops fst snd]. auto.
Qed.

(** In force mode the section is the remote call alone. *)
Lemma cacheAside_forced (w : World) :
  forcePortion env = true -> aside w = fetch w.
Proof. intros H. unfold cacheAside, bind, ret. rewrite H. reflexivity. Qed.

(** An exception of the store's [get] leaves the section. *)
Lemma cacheAside_get_failure (w : World) :
  forcePortion env = false ->
  cache_throws env (List.length (cache_ops w)) = true ->
  fst (aside w) = Thrown (CacheError "get").
Proof.
  intros Hforce Hget. unfold cacheAside, bind, cache_get.
  rewrite Hforce. cbn [negb]. rewrite Hget. reflexivity.
Qed.

(** A miss goes on to the remote call. *)
Lemma cacheAside_miss (w : World) :
  forcePortion env = false ->
  cache_throws env (List.length (cache_ops w)) = false ->
  store w !! key = None ->
  aside w = fetch (after_get key w).
Proof.
  intros Hforce Hget Hmiss. unfold cacheAside, bind, cache_get.
  rewrite Hforce. cbn [negb]. rewrite Hget, Hmiss. reflexivity.
Qed.

(** A hit is returned and no request is sent. *)
Lemma cacheAside_hit (w : World) (cached : GetPortionResponse) (ttl : Z) :
  forcePortion env = false ->
  cache_throws env (List.length (cache_ops w)) = false ->
  store w !! key = Some (cached, ttl) ->
  fst (aside w) = Returned cached
  /\ requests (snd (aside w)) = requests w
  /\ store (snd (aside w)) = store w.
Proof.
  intros Hforce Hget Hhit. unfold cacheAside, bind, cache_get, putMetric, putMetricIn, ret.
  rewrite Hforce. cbn [negb]. rewrite Hget, Hhit. cbn. auto.
Qed.

(** Unless the store's [get] throws, the section returns. *)
Lemma cacheAside_returns (w : World) :
  (forcePortion env = false -> cache_throws env (List.length (cache_ops w)) = false) ->
  exists r, fst (aside w) = Returned r.
Proof.
  intros Hget. destruct (forcePortion env) eqn:Hforce.
  - rewrite cacheAside_forced by exact Hforce. apply fetchPortion_returns.
  - specialize (Hget eq_refl).
    destruct (store w !! key) as [[cached ttl] |] eqn:Hlook.
    + exists cached. eapply cacheAside_hit; eauto.
    + rewrite cacheAside_miss by assumption. apply fetchPortion_returns.
Qed.

(** The section never leaves both collaborators alone: outside force mode
    it starts with a [get], in force mode it sends a request. *)
Lemma cacheAside_touches (w : World) :
  (List.length (cache_ops w) < List.length (cache_ops (snd (aside w))))%nat
  \/ (List.length (requests w) < List.length (requests (snd (aside w))))%nat.
Proof.
  destruct (forcePortion env) eqn:Hforce.
  - right. rewrite cacheAside_forced by exact Hforce.
    run_fetch. destruct (remote_reply env _ _);
      rewrite ?Hforce; cbn; rewrite length_app; cbn; lia.
  - left. unfold cacheAside, bind, cache_get, putMetric, putMetricIn, ret.
    rewrite Hforce. cbn [negb].
    destruct (cache_throws env (List.length (cache_ops w))) eqn:Hget.
    { cbn. rewrite length_app. cbn. lia. }
    destruct (store w !! key) as [[cached ttl] |]; cbn [fmap option_fmap option_map fst].
    { cbn. rewrite length_app. cbn. lia. }
    clear Hget. run_fetch. destruct (remote_reply env _ _).
    + rewrite Hforce. cbn [negb].
      destruct (cache_throws env _); cbn; rewrite !length_app; cbn; lia.
    + cbn. rewrite length_app. cbn. lia.
Qed.

End CacheAsideProperties.

(** ** Failures of the collaborators *)

(** With the flag read as disabled and then as enabled, the cache-aside
    section does run: a store operation is attempted or a request is sent. *)
Lemma getPortion_toggled_touches
    (env : Collaborators) (this : PortionFetcher)
    (tokenInChainId : Z) (tokenInAddress : string)
    (tokenOutChainId : Z) (tokenOutAddress : string) (w : World) :
  flag_value env (flag_reads w) = false ->
  flag_value env (S (flag_reads w)) = true ->
  ~ untouched w (snd (getPortion env this tokenInChainId tokenInAddress
                        tokenOutChainId tokenOutAddress w)).
Proof.
  intros H1 H2 (Hreq & Hops & _).
  rewrite getPortion_toggled in Hreq, Hops by assumption.
  destruct (cacheAside_touches env this tokenInChainId tokenOutChainId
              tokenInAddress tokenOutAddress (at_cache_aside w)) as [H | H];
    cbn [cache_ops requests at_cache_aside] in H.
  - rewrite Hops in H. lia.
  - rewrite Hreq in H. lia.
Qed.

(** An exception of the store's [get] is the exception of the call. *)
Lemma getPortion_cache_get_failure
    (env : Collaborators) (this : PortionFetcher)
    (tokenInChainId : Z) (tokenInAddress : string)
    (tokenOutChainId : Z) (tokenOutAddress : string) (w : World) :
  flag_value env (flag_reads w) = false ->
  flag_value env (S (flag_reads w)) = true ->
  forcePortion env = false ->
  cache_throws env (List.length (cache_ops w)) = true ->
  fst (getPortion env this tokenInChainId tokenInAddress
         tokenOutChainId tokenOutAddress w)
  = Thrown (CacheError "get").
Proof.
  intros H1 H2 Hforce Hget. rewrite getPortion_toggled by assumption.
  apply cacheAside_get_failure; assumption.
Qed.

(** C4, as stated, fails: an exception of the cache store's [get], which is
    called outside the [try] block, leaves [getPortion].  Here the flag
    reads disabled, then enabled, force mode is off and the first store
    operation throws. *)
Lemma getPortion_cache_get_exception_escapes :
  let result :=
    fst (getPortion (scripted [false; true] false (Replied BX_PORTION_RESPONSE) [true])
           sample_fetcher 1 ETH 1 USDC empty_world) in
  result = Thrown (CacheError "get")
  /\ result <> Returned GET_NO_PORTION_RESPONSE.
Proof. split; [reflexivity | discriminate]. Qed.

(** C4, amended.  Unless the cache store's [get] throws - it is reached
    when the flag reads disabled, then enabled, with force mode off -
    [getPortion] returns a response; and when, after a miss or in force
    mode, the request to the portion service is rejected (network error,
    status outside 2xx) or the store's [set] throws, that response is the
    no-portion response.  The body of an accepted reply is not examined. *)
Theorem getPortion_absorbs_remote_and_set_failures
    (env : Collaborators) (this : PortionFetcher)
    (tokenInChainId : Z) (tokenInAddress : string)
    (tokenOutChainId : Z) (tokenOutAddress : string) (w : World) :
  let toggled := flag_value env (flag_reads w) = false
                 /\ flag_value env (S (flag_reads w)) = true in
  let key := PORTION_CACHE_KEY tokenInChainId tokenInAddress
               tokenOutChainId tokenOutAddress in
  let rq := portionRequest this tokenInChainId tokenInAddress
              tokenOutChainId tokenOutAddress in
  let result := fst (getPortion env this tokenInChainId tokenInAddress
                       tokenOutChainId tokenOutAddress w) in
  (toggled -> forcePortion env = false ->
   cache_throws env (List.length (cache_ops w)) = false) ->
  (exists r, result = Returned r)
  /\ (toggled ->
      forcePortion env = true \/ store w !! key = None ->
      (exists fault, remote_reply env (List.length (requests w)) rq = Failed fault)
      \/ (forcePortion env = false
          /\ cache_throws env (S (List.length (cache_ops w))) = true) ->
      result = Returned GET_NO_PORTION_RESPONSE).
Proof.
  intros toggled key rq result Hget. subst result. split.
  - destruct (flag_value env (flag_reads w)) eqn:H1.
    { eexists. eapply getPortion_enabled, H1. }
    destruct (flag_value env (S (flag_reads w))) eqn:H2.
    + rewrite getPortion_toggled by assumption.
      apply cacheAside_returns. cbn [cache_ops at_cache_aside].
      intros Hforce. apply Hget; [split; reflexivity | exact Hforce].
    + eexists. eapply getPortion_disabled; assumption.
  - intros [H1 H2] Hmiss Hfail.
    rewrite getPortion_toggled by assumption.
    assert (Hfetch : forall w1,
               requests w1 = requests w ->
               (forcePortion env = false ->
                List.length (cache_ops w1) = S (List.length (cache_ops w))) ->
               fst (fetchPortion env this tokenInChainId tokenInAddress
                      tokenOutChainId tokenOutAddress w1)
               = Returned GET_NO_PORTION_RESPONSE).
    { intros w1 Hreq Hops.
      destruct Hfail as [[fault Hfault] | [Hforce Hset]].
      - eapply fetchPortion_remote_failure. rewrite Hreq. exact Hfault.
      - destruct (remote_reply env (List.length (requests w1))
                    (portionRequest this tokenInChainId tokenInAddress
                       tokenOutChainId tokenOutAddress)) as [data | fault] eqn:Hreply.
        + eapply fetchPortion_set_failure; [exact Hreply | exact Hforce |].
          rewrite (Hops Hforce). exact Hset.
        + eapply fetchPortion_remote_failure. exact Hreply. }
    destruct (forcePortion env) eqn:Hforce.
    + rewrite cacheAside_forced by exact Hforce.
      apply Hfetch; [reflexivity | discriminate].
    + destruct Hmiss as [Hmiss | Hmiss]; [discriminate |].
      rewrite cacheAside_miss;
        [| exact Hforce | apply Hget; [split; assumption | reflexivity] | exact Hmiss].
      apply Hfetch; [reflexivity |].
      intros _. cbn [cache_ops after_get at_cache_aside].
      rewrite length_app. cbn [List.length]. lia.
Qed.

Lemma getPortion_absorbs_remote_and_set_failures_witness :
  exists r,
    fst (getPortion (scripted [false; true] false (Replied BX_PORTION_RESPONSE) [false; true])
           sample_fetcher 1 ETH 1 USDC empty_world) = Returned r.
Proof.
  apply (getPortion_absorbs_remote_and_set_failures
           (scripted [false; true] false (Replied BX_PORTION_RESPONSE) [false; true])
           sample_fetcher 1 ETH 1 USDC empty_world).
  intros _ _. reflexivity.
Defined.

(** A store whose [set] throws after a successful reply: the reply is lost
    and the call answers no-portion. *)
Example getPortion_set_exception_absorbed :
  fst (getPortion (scripted [false; true] false (Replied BX_PORTION_RESPONSE) [false; true])
         sample_fetcher 1 ETH 1 USDC empty_world)
  = Returned GET_NO_PORTION_RESPONSE.
Proof. vm_compute. reflexivity. Qed.

Example getPortion_remote_failure_absorbed :
  fst (getPortion (scripted [false; true] false (Failed (BadStatus 503)) [])
         sample_fetcher 1 ETH 1 USDC empty_world)
  = Returned GET_NO_PORTION_RESPONSE.
Proof. vm_compute. reflexivity. Qed.

(** ** Cache-aside with asymmetric TTLs *)

(** C5. On the cache-aside path with force mode off, after a miss: a
    successful reply is returned and written to the store under the computed
    key, with the positive TTL when it carries a portion and with the
    negative TTL when it carries none, after exactly one request.  A later
    call with the same arguments that finds an entry under the key returns
    the stored value and sends no request. *)
Theorem getPortion_cache_aside_stores_then_hits
    (env : Collaborators) (this : PortionFetcher)
    (tokenInChainId : Z) (tokenInAddress : string)
    (tokenOutChainId : Z) (tokenOutAddress : string)
    (w : World) (data : GetPortionResponse) :
  let key := PORTION_CACHE_KEY tokenInChainId tokenInAddress
               tokenOutChainId tokenOutAddress in
  let rq := portionRequest this tokenInChainId tokenInAddress
              tokenOutChainId tokenOutAddress in
  let call := getPortion env this tokenInChainId tokenInAddress
                tokenOutChainId tokenOutAddress in
  forcePortion env = false ->
  flag_value env (flag_reads w) = false ->
  flag_value env (S (flag_reads w)) = true ->
  cache_throws env (List.length (cache_ops w)) = false ->
  store w !! key = None ->
  remote_reply env (List.length (requests w)) rq = Replied data ->
  cache_throws env (S (List.length (cache_ops w))) = false ->
  fst (call w) = Returned data
  /\ requests (snd (call w)) = (requests w ++ [rq])%list
  /\ store (snd (call w))
     = <[key := (data, match portion data with
                       | Some _ => positiveCacheEntryTtl this
                       | None => negativeCacheEntryTtl this
                       end)]> (store w)
  /\ (forall (later : World) (cached : GetPortionResponse) (ttl : Z),
        flag_value env (flag_reads later) = false ->
        flag_value env (S (flag_reads later)) = true ->
        cache_throws env (List.length (cache_ops later)) = false ->
        store later !! key = Some (cached, ttl) ->
        fst (call later) = Returned cached
        /\ requests (snd (call later)) = requests later).
Proof.
  intros key rq call Hforce H1 H2 Hget Hmiss Hreply Hset. subst call.
  assert (Hfirst :
            getPortion env this tokenInChainId tokenInAddress
              tokenOutChainId tokenOutAddress w
            = fetchPortion env this tokenInChainId tokenInAddress
                tokenOutChainId tokenOutAddress (after_get key (at_cache_aside w))).
  { rewrite getPortion_toggled by assumption.
    apply cacheAside_miss; assumption. }
  destruct (fetchPortion_stores env this tokenInChainId tokenOutChainId
              tokenInAddress tokenOutAddress
              (after_get key (at_cache_aside w)) data) as (Hr & Hs & Hq & _).
  { exact Hreply. }
  { exact Hforce. }
  { cbn [cache_ops after_get at_cache_aside]. rewrite length_app.
    cbn [List.length]. replace (List.length (cache_ops w) + 1)%nat
      with (S (List.length (cache_ops w))) by lia. exact Hset. }
  rewrite Hfirst. split; [exact Hr |]. split; [exact Hq |]. split; [exact Hs |].
  intros later cached ttl L1 L2 Lget Lhit.
  rewrite getPortion_toggled by assumption.
  destruct (cacheAside_hit env this tokenInChainId tokenOutChainId
              tokenInAddress tokenOutAddress (at_cache_aside later) cached ttl)
    as (Hr' & Hq' & _); [exact Hforce | exact Lget | exact Lhit |].
  split; [exact Hr' | exact Hq'].
Qed.

Lemma getPortion_cache_aside_stores_then_hits_witness :
  let env := scripted [false; true; false; true] false
               (Replied BX_PORTION_RESPONSE) [] in
  let key := PORTION_CACHE_KEY 1 ETH 1 USDC in
  let first := getPortion env sample_fetcher 1 ETH 1 USDC empty_world in
  fst first = Returned BX_PORTION_RESPONSE
  /\ store (snd first) !! key = Some (BX_PORTION_RESPONSE, 600)
  /\ fst (getPortion env sample_fetcher 1 ETH 1 USDC (snd first))
     = Returned BX_PORTION_RESPONSE
  /\ List.length (requests (snd (getPortion env sample_fetcher 1 ETH 1 USDC (snd first)))) = 1%nat.
Proof.
  intros env key first.
  destruct (getPortion_cache_aside_stores_then_hits env sample_fetcher
              1 ETH 1 USDC empty_world BX_PORTION_RESPONSE)
    as (Hr & Hq & Hs & Hlater); try reflexivity.
  assert (Hentry : store (snd first) !! key = Some (BX_PORTION_RESPONSE, 600)).
  { subst first. rewrite Hs. apply lookup_insert_eq. }
  destruct (Hlater (snd first) BX_PORTION_RESPONSE 600) as [Hr2 Hq2];
    try reflexivity; try exact Hentry.
  split; [exact Hr |]. split; [exact Hentry |]. split; [exact Hr2 |].
  rewrite Hq2. subst first. rewrite Hq. reflexivity.
Defined.

(** A reply without a portion is stored with the negative TTL. *)
Example getPortion_negative_entry :
  store (snd (getPortion (scripted [false; true] false (Replied GET_NO_PORTION_RESPONSE) [])
                sample_fetcher 1 ETH 1 UNI empty_world))
    !! PORTION_CACHE_KEY 1 ETH 1 UNI
  = Some (GET_NO_PORTION_RESPONSE, 60).
Proof. vm_compute. reflexivity. Qed.

(** In force mode two calls in a row both go to the portion service and
    the store is left alone. *)
Example getPortion_forced_twice :
  let env := scripted [false; true; false; true] true (Replied BX_PORTION_RESPONSE) [] in
  let first := getPortion env sample_fetcher 1 ETH 1 USDC empty_world in
  let second := getPortion env sample_fetcher 1 ETH 1 USDC (snd first) in
  List.length (requests (snd second)) = 2%nat
  /\ cache_ops (snd second) = []
  /\ store (snd second) = ∅.
Proof. vm_compute. repeat split. Qed.

(** ** Quote parsing *)

(** C6, as stated, fails on the kind of the error: what is thrown for an
    unknown tag is the value of [new Error(message)], not an instance of an
    error type of its own named [UnknownRoutingType]. *)
Lemma parseQuote_throws_plain_Error :
  let result :=
    fst (parseQuote (scripted [] false (Failed NetworkError) []) "DUTCH_LIMIT" "CLASSIC"
           unit ClassicQuoteDataJSON (fun _ _ => ret tt) (fun body => body)
           {| QuoteRequest.info := sample_info EXACT_INPUT None |}
           "DUTCH_V2" (sample_body "100" "95" "94" None) empty_world) in
  result = Thrown (Error "Unknown routing type: DUTCH_V2")
  /\ (forall message, result <> Thrown (NamedError "UnknownRoutingType" message)).
Proof. split; [reflexivity | intros message; discriminate]. Qed.

(** C6, amended. Quote parsing with a routing tag that is neither
    [DUTCH_LIMIT] nor [CLASSIC] throws a plain [Error] whose message,
    [Unknown routing type: <tag>], names the tag; no entity is
    constructed (no identifier is drawn, no clock is read, neither
    constructor runs: the world is as before) and the error is not turned
    into a value: the caller [buildQuoteResponse] throws it as well. *)
Theorem parseQuote_unknown_routing_type
    (env : Collaborators) (DUTCH_LIMIT CLASSIC : string)
    (DutchLimitQuote ReceivedQuoteData : Type)
    (dutchFromResponseBody : QuoteRequest.t -> ReceivedQuoteData -> M DutchLimitQuote)
    (asClassic : ReceivedQuoteData -> ClassicQuoteDataJSON)
    (request : QuoteRequest.t) (routing : string) (quote : ReceivedQuoteData)
    (w : World) :
  routing <> DUTCH_LIMIT ->
  routing <> CLASSIC ->
  parseQuote env DUTCH_LIMIT CLASSIC DutchLimitQuote ReceivedQuoteData
    dutchFromResponseBody asClassic request routing quote w
  = (Thrown (Error ("Unknown routing type: " ++ routing)), w)
  /\ buildQuoteResponse env DUTCH_LIMIT CLASSIC DutchLimitQuote ReceivedQuoteData
       dutchFromResponseBody asClassic routing quote request w
     = (Thrown (Error ("Unknown routing type: " ++ routing)), w).
Proof.
  intros Hd Hc. unfold buildQuoteResponse, parseQuote.
  apply String.eqb_neq in Hd, Hc. rewrite Hd, Hc. split; reflexivity.
Qed.

Lemma parseQuote_unknown_routing_type_witness :
  parseQuote (scripted [] false (Failed NetworkError) []) "DUTCH_LIMIT" "CLASSIC"
    unit ClassicQuoteDataJSON (fun _ _ => ret tt) (fun body => body)
    {| QuoteRequest.info := sample_info EXACT_INPUT None |}
    "DUTCH_V2" (sample_body "100" "95" "94" None) empty_world
  = (Thrown (Error "Unknown routing type: DUTCH_V2"), empty_world).
Proof.
  apply (parseQuote_unknown_routing_type
           (scripted [] false (Failed NetworkError) []) "DUTCH_LIMIT" "CLASSIC"
           unit ClassicQuoteDataJSON (fun _ _ => ret tt) (fun body => body)
           {| QuoteRequest.info := sample_info EXACT_INPUT None |}
           "DUTCH_V2" (sample_body "100" "95" "94" None) empty_world);
    discriminate.
Defined.

(** The [CLASSIC] tag, for contrast, constructs an entity. *)
Example parseQuote_classic :
  exists q w',
    parseQuote (scripted [] false (Failed NetworkError) []) "DUTCH_LIMIT" "CLASSIC"
      unit ClassicQuoteDataJSON (fun _ _ => ret tt) (fun body => body)
      {| QuoteRequest.info := sample_info EXACT_INPUT None |}
      "CLASSIC" (sample_body "100" "95" "94" None) empty_world
    = (Returned (QuoteClassic unit q), w')
    /\ ClassicQuote.createdAtMs q = "1700000000000"
    /\ ClassicQuote.createdAt q = "1700000000"
    /\ uuids_drawn w' = 1%nat /\ clock_reads w' = 1%nat.
Proof. eexists. eexists. vm_compute. repeat split. Qed.

(** ** Amounts of a classic quote *)

(** C7. With trade type [EXACT_INPUT], [amountIn] is the raw [amount] field
    and [amountOut] the raw [quote] field, each read as an integer of
    arbitrary precision; with [EXACT_OUTPUT] the roles are exchanged. *)
Theorem ClassicQuote_amounts_by_trade_type (q : ClassicQuote.t) :
  (ClassicQuote.tradeTypeOf q = EXACT_INPUT ->
   ClassicQuote.amountIn q = BigNumber.from_string (amount (ClassicQuote.quoteData q))
   /\ ClassicQuote.amountOut q = BigNumber.from_string (quote (ClassicQuote.quoteData q)))
  /\ (ClassicQuote.tradeTypeOf q = EXACT_OUTPUT ->
      ClassicQuote.amountIn q = BigNumber.from_string (quote (ClassicQuote.quoteData q))
      /\ ClassicQuote.amountOut q = BigNumber.from_string (amount (ClassicQuote.quoteData q))).
Proof.
  unfold ClassicQuote.amountIn, ClassicQuote.amountOut.
  split; intros ->; split; reflexivity.
Qed.

Lemma ClassicQuote_amounts_by_trade_type_witness :
  (ClassicQuote.amountIn (sample_quote EXACT_INPUT None (sample_body "100" "95" "94" None) None)
   = Returned (BigNumber.Integer 100)
   /\ ClassicQuote.amountOut (sample_quote EXACT_INPUT None (sample_body "100" "95" "94" None) None)
      = Returned (BigNumber.Integer 95))
  /\ (ClassicQuote.amountIn (sample_quote EXACT_OUTPUT None (sample_body "100" "95" "94" None) None)
      = Returned (BigNumber.Integer 95)
      /\ ClassicQuote.amountOut (sample_quote EXACT_OUTPUT None (sample_body "100" "95" "94" None) None)
         = Returned (BigNumber.Integer 100)).
Proof.
  split.
  - apply (ClassicQuote_amounts_by_trade_type
             (sample_quote EXACT_INPUT None (sample_body "100" "95" "94" None) None)).
    reflexivity.
  - apply (ClassicQuote_amounts_by_trade_type
             (sample_quote EXACT_OUTPUT None (sample_body "100" "95" "94" None) None)).
    reflexivity.
Defined.

(** Amounts beyond 64 bits are read exactly. *)
Example ClassicQuote_amount_is_unbounded :
  ClassicQuote.amountIn
    (sample_quote EXACT_INPUT None
       (sample_body "340282366920938463463374607431768211456" "1" "1" None) None)
  = Returned (BigNumber.Integer (2 ^ 128)).
Proof. reflexivity. Qed.

(** C8. Without the field [quoteGasAndPortionAdjusted], the gas-and-portion
    adjusted accessor of the computed side is the gas-adjusted accessor of
    that side: of the output for [EXACT_INPUT], of the input for
    [EXACT_OUTPUT].  The fallback is what the accessor reads. *)
Theorem ClassicQuote_portion_adjusted_fallback (q : ClassicQuote.t) :
  quoteGasAndPortionAdjusted (ClassicQuote.quoteData q) = None ->
  (ClassicQuote.tradeTypeOf q = EXACT_INPUT ->
   ClassicQuote.amountOutGasAndPortionAdjusted q = ClassicQuote.amountOutGasAdjusted q
   /\ ClassicQuote.amountOutGasAndPortionAdjusted q
      = BigNumber.from_string (quoteGasAdjusted (ClassicQuote.quoteData q)))
  /\ (ClassicQuote.tradeTypeOf q = EXACT_OUTPUT ->
      ClassicQuote.amountInGasAndPortionAdjusted q = ClassicQuote.amountInGasAdjusted q
      /\ ClassicQuote.amountInGasAndPortionAdjusted q
         = BigNumber.from_string (quoteGasAdjusted (ClassicQuote.quoteData q))).
Proof.
  intros Habsent.
  unfold ClassicQuote.amountOutGasAndPortionAdjusted, ClassicQuote.amountOutGasAdjusted,
         ClassicQuote.amountInGasAndPortionAdjusted, ClassicQuote.amountInGasAdjusted.
  rewrite Habsent. cbn [ClassicQuote.nullish].
  split; intros ->; split; reflexivity.
Qed.

Lemma ClassicQuote_portion_adjusted_fallback_witness :
  ClassicQuote.amountOutGasAndPortionAdjusted
    (sample_quote EXACT_INPUT None (sample_body "100" "95" "94" None) None)
  = Returned (BigNumber.Integer 94).
Proof.
  apply (ClassicQuote_portion_adjusted_fallback
           (sample_quote EXACT_INPUT None (sample_body "100" "95" "94" None) None));
    reflexivity.
Defined.

(** With the field present it is the field that is read. *)
Example ClassicQuote_portion_adjusted_present :
  ClassicQuote.amountOutGasAndPortionAdjusted
    (sample_quote EXACT_INPUT None (sample_body "100" "95" "94" (Some "93")) None)
  = Returned (BigNumber.Integer 93).
Proof. reflexivity. Qed.

(** ** Permit data *)

Lemma number_toString_truthy (z : Z) : Js.truthy (Js.number_toString z) = true.
Proof.
  unfold Js.number_toString, NilZero.string_of_int, NilZero.string_of_uint.
  destruct (Z.to_int z) as [d | d]; [| reflexivity].
  destruct d; reflexivity.
Qed.

Lemma from_string_truthy (s : string) (b : BigNumber.t) :
  BigNumber.from_string s = Returned b -> Js.truthy s = true.
Proof. destruct s; [discriminate | reflexivity]. Qed.

(** An integer prints as a non-empty string. *)
Lemma isInteger_truthy (v : BigNumber.BigNumberish) :
  isInteger v -> Js.truthy (BigNumber.toString v) = true.
Proof.
  intros [z Hz]. destruct v as [s | n | n]; cbn [BigNumber.toString].
  - eapply from_string_truthy, Hz.
  - apply number_toString_truthy.
  - apply number_toString_truthy.
Qed.

Section PermitData.

Variable env : Collaborators.
Variable PermitSingleData : Type.
Variable createPermitData : string -> Z -> string -> PermitSingleData.

Local Abbreviation permit := (ClassicQuote.getPermitData env PermitSingleData createPermitData).

Lemma getPermitData_no_swapper (q : ClassicQuote.t) (w : World) :
  ClassicQuote.noSwapper q = true -> fst (permit q w) = Returned None.
Proof.
  intros H. unfold ClassicQuote.getPermitData, bind, ret. rewrite H. reflexivity.
Qed.

Lemma getPermitData_no_allowance (q : ClassicQuote.t) (w : World) :
  ClassicQuote.noSwapper q = false ->
  ClassicQuote.allowanceData q = None ->
  fst (permit q w)
  = Returned (Some (createPermitData
                      (QuoteRequest.tokenIn (QuoteRequest.info (ClassicQuote.request q)))
                      (QuoteRequest.tokenInChainId (QuoteRequest.info (ClassicQuote.request q)))
                      "0")).
Proof.
  intros H Ha. unfold ClassicQuote.getPermitData, ClassicQuote.nonceOrZero, bind, ret.
  rewrite H, Ha. reflexivity.
Qed.

(** With a requester and a recorded allowance below [amountIn], permit
    data is returned and neither the expiration nor the clock is read. *)
Lemma getPermitData_below (q : ClassicQuote.t) (w : World)
    (a : PermitDetails) (allowed needed : Z) :
  ClassicQuote.noSwapper q = false ->
  ClassicQuote.allowanceData q = Some a ->
  BigNumber.from (pd_amount a) = Returned (BigNumber.Integer allowed) ->
  ClassicQuote.amountIn q = Returned (BigNumber.Integer needed) ->
  allowed < needed ->
  permit q w
  = (Returned (Some (createPermitData
                       (QuoteRequest.tokenIn (QuoteRequest.info (ClassicQuote.request q)))
                       (QuoteRequest.tokenInChainId
                          (QuoteRequest.info (ClassicQuote.request q)))
                       (ClassicQuote.nonceOrZero q))), w).
Proof.
  intros H Ha Hallowed Hneeded Hlt.
  unfold ClassicQuote.getPermitData, ClassicQuote.allowanceSuffices,
         ClassicQuote.lift, bind, ret, Date_now.
  rewrite H, Ha, Hallowed, Hneeded. cbn [BigNumber.gte BigNumber.toBN].
  replace (allowed >=? needed)%Z with false
    by (symmetry; rewrite Z.geb_leb; apply Z.leb_gt; lia).
  reflexivity.
Qed.

(** With a requester and a recorded allowance whose comparison can be
    evaluated, the result is decided by the comparison. *)
Lemma getPermitData_allowance (q : ClassicQuote.t) (w : World)
    (a : PermitDetails) (allowed needed expiration : Z) :
  ClassicQuote.noSwapper q = false ->
  ClassicQuote.allowanceData q = Some a ->
  BigNumber.from (pd_amount a) = Returned (BigNumber.Integer allowed) ->
  ClassicQuote.amountIn q = Returned (BigNumber.Integer needed) ->
  BigNumber.from (pd_expiration a) = Returned (BigNumber.Integer expiration) ->
  fst (permit q w)
  = Returned
      (if (allowed >=? needed)%Z && (expiration >? clock_value env (clock_reads w) / 1000)%Z
       then None
       else Some (createPermitData
                    (QuoteRequest.tokenIn (QuoteRequest.info (ClassicQuote.request q)))
                    (QuoteRequest.tokenInChainId (QuoteRequest.info (ClassicQuote.request q)))
                    (ClassicQuote.nonceOrZero q))).
Proof.
  intros H Ha Hallowed Hneeded Hexp.
  unfold ClassicQuote.getPermitData, ClassicQuote.allowanceSuffices,
         ClassicQuote.lift, bind, ret, Date_now.
  rewrite H, Ha, Hallowed, Hneeded. cbn [BigNumber.gte BigNumber.toBN].
  destruct (allowed >=? needed)%Z; cbn [andb]; [| reflexivity].
  rewrite Hexp. cbn [BigNumber.gt BigNumber.toBN clock_reads].
  destruct (expiration >? clock_value env (clock_reads w) / 1000)%Z; reflexivity.
Qed.

(** Whenever the call returns absent, there was nothing to permit. *)
Lemma getPermitData_absent_only_if (q : ClassicQuote.t) (w : World) :
  fst (permit q w) = Returned None ->
  nothingToPermit q (clock_value env (clock_reads w) / 1000).
Proof.
  unfold nothingToPermit, allowanceCovers.
  destruct (ClassicQuote.noSwapper q) eqn:H; [auto |].
  intros Hres. right.
  unfold ClassicQuote.getPermitData, ClassicQuote.allowanceSuffices,
         ClassicQuote.lift, bind, ret, Date_now in Hres.
  rewrite H in Hres.
  destruct (ClassicQuote.allowanceData q) as [a |]; [| discriminate].
  exists a. split; [reflexivity |].
  destruct (BigNumber.from (pd_amount a)) as [[allowed | u] |];
    [| destruct (ClassicQuote.amountIn q) as [[? | ?] |]; discriminate | discriminate].
  destruct (ClassicQuote.amountIn q) as [[needed | u] |]; [| discriminate ..].
  cbn [BigNumber.gte BigNumber.toBN] in Hres.
  destruct (allowed >=? needed)%Z eqn:Hge; [| discriminate].
  destruct (BigNumber.from (pd_expiration a)) as [[expiration | u] |];
    [| discriminate ..].
  cbn [BigNumber.gt BigNumber.toBN fst clock_reads] in Hres.
  destruct (expiration >? clock_value env (clock_reads w) / 1000)%Z eqn:Hgt;
    [| discriminate].
  exists allowed, needed, expiration. repeat split; lia.
Qed.

(** Whenever there is nothing to permit, the call returns absent. *)
Lemma getPermitData_absent_if (q : ClassicQuote.t) (w : World) :
  nothingToPermit q (clock_value env (clock_reads w) / 1000) ->
  fst (permit q w) = Returned None.
Proof.
  intros [Hno | (a & Ha & allowed & needed & expiration & Hal & Hne & Hex & Hge & Hgt)].
  - apply getPermitData_no_swapper, Hno.
  - destruct (ClassicQuote.noSwapper q) eqn:H; [apply getPermitData_no_swapper, H |].
    rewrite (getPermitData_allowance q w a allowed needed expiration) by assumption.
    replace (allowed >=? needed)%Z with true by (symmetry; apply Z.geb_le; lia).
    replace (expiration >? clock_value env (clock_reads w) / 1000)%Z with true
      by (symmetry; apply Z.gtb_lt; lia).
    reflexivity.
Qed.

(** With a requester, a comparison that cannot be evaluated throws. *)
Lemma getPermitData_throws (q : ClassicQuote.t) (w : World) :
  ClassicQuote.noSwapper q = false ->
  ~ numericAllowance q ->
  exists e, fst (permit q w) = Thrown e.
Proof.
  intros H Hnot.
  unfold ClassicQuote.getPermitData, ClassicQuote.allowanceSuffices,
         ClassicQuote.lift, bind, ret, Date_now.
  rewrite H.
  destruct (ClassicQuote.allowanceData q) as [a |] eqn:Ha.
  2: { exfalso. apply Hnot. intros a' Ha'. rewrite Ha in Ha'. discriminate. }
  destruct (BigNumber.from (pd_amount a)) as [[allowed | u] |] eqn:Hal.
  - destruct (ClassicQuote.amountIn q) as [[needed | u] |] eqn:Hne;
      cbn [BigNumber.gte BigNumber.toBN]; [| eauto ..].
    destruct (allowed >=? needed)%Z eqn:Hge.
    + destruct (BigNumber.from (pd_expiration a)) as [[expiration | u] |] eqn:Hex;
        cbn [BigNumber.gt BigNumber.toBN fst]; [| eauto ..].
      exfalso. apply Hnot. intros a' Ha'. rewrite Ha in Ha'. injection Ha' as <-.
      exists allowed, needed. split; [exact Hal |]. split; [exact Hne |].
      intros _. exists expiration. exact Hex.
    + exfalso. apply Hnot. intros a' Ha'. rewrite Ha in Ha'. injection Ha' as <-.
      exists allowed, needed. split; [exact Hal |]. split; [exact Hne |].
      intros Hle. rewrite Z.geb_leb in Hge. apply Z.leb_gt in Hge. lia.
  - destruct (ClassicQuote.amountIn q) as [[needed | u'] |];
      cbn [BigNumber.gte BigNumber.toBN]; eauto.
  - eauto.
Qed.

End PermitData.

(** C9, as stated, fails twice.  On "in every other case it returns permit
    data": with a requester, a recorded allowance and a payload whose
    [amount] is not an integer string, there is something to permit, yet
    the getter [this.amountIn] throws and no permit data is returned.  On
    "using the recorded allowance's nonce": a recorded allowance whose
    nonce is the empty string gives permit data with the nonce ['0']. *)
Lemma getPermitData_malformed_amount_throws :
  let q := sample_quote EXACT_INPUT (Some "0x5555555555555555555555555555555555555555")
             (sample_body "1e+21" "95" "94" None)
             (Some (sample_allowance "1000" 1800000000 7)) in
  let q' := sample_quote EXACT_INPUT (Some "0x5555555555555555555555555555555555555555")
              (sample_body "100" "95" "94" None)
              (Some {| pd_token := "0xA0b86991c6218b36c1d19D4a2e9Eb0cE3606eB48";
                       pd_amount := BigNumber.OfString "50";
                       pd_expiration := BigNumber.OfNumber 1800000000;
                       pd_nonce := BigNumber.OfString "" |}) in
  let env := scripted [] false (Failed NetworkError) [] in
  let result := fst (ClassicQuote.getPermitData env _ permitOf q empty_world) in
  (~ nothingToPermit q (clock_value env 0 / 1000)
   /\ result = Thrown (InvalidArgument "invalid BigNumber string" "1e+21")
   /\ (forall permitData, result <> Returned (Some permitData)))
  /\ fst (ClassicQuote.getPermitData env _ permitOf q' empty_world)
     = Returned (Some ("0xA0b86991c6218b36c1d19D4a2e9Eb0cE3606eB48", 1, "0")).
Proof.
  intros q q' env result. split; [split; [| split] |].
  - intros [Hno | (a & Ha & allowed & needed & expiration & _ & Hne & _)];
      discriminate.
  - reflexivity.
  - intros permitData. discriminate.
  - reflexivity.
Qed.

(** C9, amended.  [getPermitData] returns absent exactly when the request
    carries no requester address (none, or an empty one) or the recorded
    allowance has an amount of at least [amountIn] and an expiration
    strictly after the current time in seconds.  In every other case,
    provided that the comparison can be evaluated - the amount of a
    recorded allowance and the quote's [amountIn] are integers and, when
    the amount suffices, so is the expiration - it returns the permit data
    built from the request's token-in address and chain id and the nonce of
    the recorded allowance as a string, or ['0'] when that string is empty
    or no allowance is recorded.  With a requester and a comparison that
    cannot be evaluated the call throws. *)
Theorem getPermitData_absent_iff_nothing_to_permit
    (env : Collaborators) (PermitSingleData : Type)
    (createPermitData : string -> Z -> string -> PermitSingleData)
    (q : ClassicQuote.t) (w : World) :
  let nowSeconds := clock_value env (clock_reads w) / 1000 in
  let info := QuoteRequest.info (ClassicQuote.request q) in
  let nonce := match ClassicQuote.allowanceData q with
               | Some a =>
                   if Js.truthy (BigNumber.toString (pd_nonce a))
                   then BigNumber.toString (pd_nonce a)
                   else "0"
               | None => "0"
               end in
  let result :=
    fst (ClassicQuote.getPermitData env PermitSingleData createPermitData q w) in
  (result = Returned None <-> nothingToPermit q nowSeconds)
  /\ (numericAllowance q ->
      ~ nothingToPermit q nowSeconds ->
      result = Returned (Some (createPermitData (QuoteRequest.tokenIn info)
                                 (QuoteRequest.tokenInChainId info) nonce)))
  /\ (ClassicQuote.noSwapper q = false ->
      ~ numericAllowance q ->
      exists e, result = Thrown e).
Proof.
  intros nowSeconds info nonce result.
  assert (Hiff : result = Returned None <-> nothingToPermit q nowSeconds).
  { split; [apply getPermitData_absent_only_if | apply getPermitData_absent_if]. }
  split; [exact Hiff |].
  split; [| apply getPermitData_throws].
  intros Hnum Hsomething.
  change nonce with (ClassicQuote.nonceOrZero q).
  destruct (ClassicQuote.noSwapper q) eqn:Hsw.
  { exfalso. apply Hsomething. left. exact Hsw. }
  destruct (ClassicQuote.allowanceData q) as [a |] eqn:Ha.
  - destruct (Hnum a Ha) as (allowed & needed & Hal & Hne & Hexp).
    destruct (Z.lt_ge_cases allowed needed) as [Hlt | Hge].
    + subst result.
      rewrite (getPermitData_below env PermitSingleData createPermitData
                 q w a allowed needed Hsw Ha Hal Hne Hlt).
      reflexivity.
    + destruct (Hexp Hge) as [expiration Hex].
      pose proof (getPermitData_allowance env PermitSingleData createPermitData
                    q w a allowed needed expiration Hsw Ha Hal Hne Hex) as Hres.
      fold result in Hres.
      destruct ((allowed >=? needed)%Z
                && (expiration >? clock_value env (clock_reads w) / 1000)%Z).
      * exfalso. apply Hsomething, Hiff, Hres.
      * exact Hres.
  - subst result info. unfold ClassicQuote.nonceOrZero. rewrite Ha.
    apply getPermitData_no_allowance; assumption.
Qed.

Lemma getPermitData_absent_iff_nothing_to_permit_witness :
  let q := sample_quote EXACT_INPUT (Some "0x5555555555555555555555555555555555555555")
             (sample_body "100" "95" "94" None)
             (Some (sample_allowance "50" 1800000000 7)) in
  let env := scripted [] false (Failed NetworkError) [] in
  fst (ClassicQuote.getPermitData env _ permitOf q empty_world)
  = Returned (Some ("0xA0b86991c6218b36c1d19D4a2e9Eb0cE3606eB48", 1, "7")).
Proof.
  intros q env.
  apply (getPermitData_absent_iff_nothing_to_permit env _ permitOf q empty_world).
  - intros a Ha. injection Ha as <-.
    exists 50, 100. split; [reflexivity |]. split; [reflexivity |]. lia.
  - intros [Hno | (a & Ha & allowed & needed & expiration & Hal & Hne & _ & Hge & _)].
    + discriminate Hno.
    + injection Ha as <-. vm_compute in Hal, Hne.
      injection Hal as <-. injection Hne as <-. lia.
Defined.

(** With an upper-case [0X] prefix the amount is returned by the accessor
    and refused by the comparison. *)
Example getPermitData_upper_case_prefix :
  let q := sample_quote EXACT_INPUT (Some "0x5555555555555555555555555555555555555555")
             (sample_body "0X1F" "95" "94" None)
             (Some (sample_allowance "100" 1800000000 7)) in
  ClassicQuote.amountIn q = Returned (BigNumber.Unusable "0X1F")
  /\ fst (ClassicQuote.getPermitData (scripted [] false (Failed NetworkError) []) _
            permitOf q empty_world)
     = Thrown (InvalidCharacter "0X1F").
Proof. split; reflexivity. Qed.

(** A [number] at [2^53 - 1] is refused as an allowance. *)
Example getPermitData_unsafe_number :
  let q := sample_quote EXACT_INPUT (Some "0x5555555555555555555555555555555555555555")
             (sample_body "100" "95" "94" None)
             (Some {| pd_token := "0xA0b86991c6218b36c1d19D4a2e9Eb0cE3606eB48";
                      pd_amount := BigNumber.OfNumber (2 ^ 53 - 1);
                      pd_expiration := BigNumber.OfNumber 1800000000;
                      pd_nonce := BigNumber.OfNumber 7 |}) in
  fst (ClassicQuote.getPermitData (scripted [] false (Failed NetworkError) []) _
         permitOf q empty_world)
  = Thrown (NumericFault "overflow").
Proof. reflexivity. Qed.

(** An allowance that covers the amount and has not expired: no permit. *)
Example getPermitData_covered :
  fst (ClassicQuote.getPermitData (scripted [] false (Failed NetworkError) []) _ permitOf
         (sample_quote EXACT_INPUT (Some "0x5555555555555555555555555555555555555555")
            (sample_body "100" "95" "94" None)
            (Some (sample_allowance "100" 1800000000 7)))
         empty_world)
  = Returned None.
Proof. reflexivity. Qed.

(** The same allowance, expired at the second the clock shows: a permit
    with its nonce. *)
Example getPermitData_expired :
  fst (ClassicQuote.getPermitData (scripted [] false (Failed NetworkError) []) _ permitOf
         (sample_quote EXACT_INPUT (Some "0x5555555555555555555555555555555555555555")
            (sample_body "100" "95" "94" None)
            (Some (sample_allowance "100" 1700000000 7)))
         empty_world)
  = Returned (Some ("0xA0b86991c6218b36c1d19D4a2e9Eb0cE3606eB48", 1, "7")).
Proof. reflexivity. Qed.

(** No allowance recorded: a permit with nonce ['0']. *)
Example getPermitData_fresh :
  fst (ClassicQuote.getPermitData (scripted [] false (Failed NetworkError) []) _ permitOf
         (sample_quote EXACT_OUTPUT (Some "0x5555555555555555555555555555555555555555")
            (sample_body "100" "95" "94" None) None)
         empty_world)
  = Returned (Some ("0xA0b86991c6218b36c1d19D4a2e9Eb0cE3606eB48", 1, "0")).
Proof. reflexivity. Qed.

(** * Further properties of the code *)

(** ** Decimal numerals *)

Lemma read_digits_of_uint_acc (d : Decimal.uint) (acc : positive) :
  BigNumber.read_digits 10 BigNumber.digit_value (NilEmpty.string_of_uint d) (Z.pos acc)
  = Some (Z.pos (Pos.of_uint_acc d acc)).
Proof.
  revert acc.
  induction d; intros acc;
    cbn [NilEmpty.string_of_uint BigNumber.read_digits Pos.of_uint_acc].
  - reflexivity.
  - change (BigNumber.digit_value "0") with (Some 0).
    cbv beta iota. rewrite <- IHd. f_equal. lia.
  - change (BigNumber.digit_value "1") with (Some 1).
    cbv beta iota. rewrite <- IHd. f_equal. lia.
  - change (BigNumber.digit_value "2") with (Some 2).
    cbv beta iota. rewrite <- IHd. f_equal. lia.
  - change (BigNumber.digit_value "3") with (Some 3).
    cbv beta iota. rewrite <- IHd. f_equal. lia.
  - change (BigNumber.digit_value "4") with (Some 4).
    cbv beta iota. rewrite <- IHd. f_equal. lia.
  - change (BigNumber.digit_value "5") with (Some 5).
    cbv beta iota. rewrite <- IHd. f_equal. lia.
  - change (BigNumber.digit_value "6") with (Some 6).
    cbv beta iota. rewrite <- IHd. f_equal. lia.
  - change (BigNumber.digit_value "7") with (Some 7).
    cbv beta iota. rewrite <- IHd. f_equal. lia.
  - change (BigNumber.digit_value "8") with (Some 8).
    cbv beta iota. rewrite <- IHd. f_equal. lia.
  - change (BigNumber.digit_value "9") with (Some 9).
    cbv beta iota. rewrite <- IHd. f_equal. lia.
Qed.

Lemma read_digits_of_uint (d : Decimal.uint) :
  BigNumber.read_digits 10 BigNumber.digit_value (NilEmpty.string_of_uint d) 0
  = Some (Z.of_N (Pos.of_uint d)).
Proof.
  induction d; cbn [NilEmpty.string_of_uint BigNumber.read_digits Pos.of_uint].
  - reflexivity.
  - change (BigNumber.digit_value "0") with (Some 0).
    cbv beta iota. exact IHd.
  - change (BigNumber.digit_value "1") with (Some 1).
    cbv beta iota. change (0 * 10 + 1) with (Z.pos 1).
    apply read_digits_of_uint_acc.
  - change (BigNumber.digit_value "2") with (Some 2).
    cbv beta iota. change (0 * 10 + 2) with (Z.pos 2).
    apply read_digits_of_uint_acc.
  - change (BigNumber.digit_value "3") with (Some 3).
    cbv beta iota. change (0 * 10 + 3) with (Z.pos 3).
    apply read_digits_of_uint_acc.
  - change (BigNumber.digit_value "4") with (Some 4).
    cbv beta iota. change (0 * 10 + 4) with (Z.pos 4).
    apply read_digits_of_uint_acc.
  - change (BigNumber.digit_value "5") with (Some 5).
    cbv beta iota. change (0 * 10 + 5) with (Z.pos 5).
    apply read_digits_of_uint_acc.
  - change (BigNumber.digit_value "6") with (Some 6).
    cbv beta iota. change (0 * 10 + 6) with (Z.pos 6).
    apply read_digits_of_uint_acc.
  - change (BigNumber.digit_value "7") with (Some 7).
    cbv beta iota. change (0 * 10 + 7) with (Z.pos 7).
    apply read_digits_of_uint_acc.
  - change (BigNumber.digit_value "8") with (Some 8).
    cbv beta iota. change (0 * 10 + 8) with (Z.pos 8).
    apply read_digits_of_uint_acc.
  - change (BigNumber.digit_value "9") with (Some 9).
    cbv beta iota. change (0 * 10 + 9) with (Z.pos 9).
    apply read_digits_of_uint_acc.
Qed.

Lemma read_unsigned_of_uint (d : Decimal.uint) :
  d <> Decimal.Nil ->
  BigNumber.read_unsigned (NilEmpty.string_of_uint d)
  = Some (BigNumber.Integer (Z.of_N (Pos.of_uint d))).
Proof.
  intros Hd.
  assert (H : BigNumber.read_unsigned (NilEmpty.string_of_uint d)
              = BigNumber.Integer
                  <$> BigNumber.read_digits 10 BigNumber.digit_value
                        (NilEmpty.string_of_uint d) 0).
  { destruct d as [| d | d | d | d | d | d | d | d | d | d];
      try congruence; try reflexivity.
    destruct d; reflexivity. }
  rewrite H, read_digits_of_uint. reflexivity.
Qed.

Lemma from_string_of_uint (d : Decimal.uint) :
  d <> Decimal.Nil ->
  BigNumber.from_string (NilEmpty.string_of_uint d)
  = Returned (BigNumber.Integer (Z.of_N (Pos.of_uint d))).
Proof.
  intros Hd.
  assert (Hread : BigNumber.from_string (NilEmpty.string_of_uint d)
                  = match BigNumber.read_unsigned (NilEmpty.string_of_uint d) with
                    | Some b => Returned b
                    | None => Thrown (InvalidArgument "invalid BigNumber string"
                                        (NilEmpty.string_of_uint d))
                    end).
  { destruct d; try congruence; reflexivity. }
  rewrite Hread, read_unsigned_of_uint by exact Hd. reflexivity.
Qed.

(** Printing an integer and reading it back gives the integer. *)
Lemma from_string_number_toString (z : Z) :
  BigNumber.from_string (Js.number_toString z) = Returned (BigNumber.Integer z).
Proof.
  unfold Js.number_toString.
  destruct z as [| p | p]; [reflexivity | |];
    cbn [Z.to_int NilZero.string_of_int];
    pose proof (Unsigned.of_to p) as Hp;
    assert (Hnil : Pos.to_uint p <> Decimal.Nil)
      by (intros E; rewrite E in Hp; discriminate Hp).
  - replace (NilZero.string_of_uint (Pos.to_uint p))
      with (NilEmpty.string_of_uint (Pos.to_uint p))
      by (destruct (Pos.to_uint p); [congruence | reflexivity ..]).
    rewrite from_string_of_uint, Hp by exact Hnil. reflexivity.
  - replace (NilZero.string_of_uint (Pos.to_uint p))
      with (NilEmpty.string_of_uint (Pos.to_uint p))
      by (destruct (Pos.to_uint p); [congruence | reflexivity ..]).
    unfold BigNumber.from_string.
    rewrite read_unsigned_of_uint, Hp by exact Hnil. reflexivity.
Qed.

Lemma number_toString_inj (a b : Z) :
  Js.number_toString a = Js.number_toString b -> a = b.
Proof.
  intros H. pose proof (from_string_number_toString a) as Ha.
  rewrite H, from_string_number_toString in Ha. congruence.
Qed.

(** ** Cache keys of different pairs *)

Lemma uint_hyphen_free (d : Decimal.uint) :
  hyphen_free (NilEmpty.string_of_uint d) = true.
Proof. induction d; cbn; auto. Qed.

Lemma number_toString_hyphen_free (z : Z) :
  0 <= z -> hyphen_free (Js.number_toString z) = true.
Proof.
  intros Hz. unfold Js.number_toString.
  destruct z as [| p | p]; [reflexivity | | lia].
  cbn [Z.to_int NilZero.string_of_int]. unfold NilZero.string_of_uint.
  destruct (Pos.to_uint p) eqn:E; try reflexivity; rewrite <- E; apply uint_hyphen_free.
Qed.

Lemma lower_char_hyphen (c : ascii) :
  Ascii.eqb (Js.lower_char c) "-" = Ascii.eqb c "-".
Proof. destruct c as [[] [] [] [] [] [] [] []]; reflexivity. Qed.

Lemma toLowerCase_hyphen_free (s : string) :
  hyphen_free (Js.toLowerCase s) = hyphen_free s.
Proof.
  induction s as [| c s IH]; [reflexivity |].
  cbn [Js.toLowerCase hyphen_free]. rewrite lower_char_hyphen, IH. reflexivity.
Qed.

(** Two hyphen-free strings followed by a hyphen and a rest: the first
    hyphen tells where each ends. *)
Lemma split_at_hyphen (s s' r r' : string) :
  hyphen_free s = true -> hyphen_free s' = true ->
  s ++ String "-" r = s' ++ String "-" r' ->
  s = s' /\ r = r'.
Proof.
  revert s'. induction s as [| c s IH]; intros [| c' s'] Hs Hs' H;
    cbn [String.append hyphen_free] in *.
  - injection H as ->. auto.
  - injection H as <- _. discriminate Hs'.
  - injection H as -> _. discriminate Hs.
  - injection H as -> H.
    apply andb_true_iff in Hs as [_ Hs]. apply andb_true_iff in Hs' as [_ Hs'].
    destruct (IH s' Hs Hs' H) as [-> ->]. auto.
Qed.

Lemma append_cancel_l (p x y : string) : p ++ x = p ++ y -> x = y.
Proof.
  induction p as [| c p IH]; cbn [String.append]; [auto |].
  intros H. injection H as H. auto.
Qed.

(** X1. Keys do not collide: for chain ids that are not negative and
    addresses without a hyphen (the first address is what matters), equal
    cache keys come only from equal chain ids and addresses equal up to
    letter casing. *)
Theorem PORTION_CACHE_KEY_injective
    (c1 c1' c2 c2' : Z) (a a' b b' : string) :
  0 <= c1 -> 0 <= c1' -> 0 <= c2 -> 0 <= c2' ->
  hyphen_free a = true -> hyphen_free a' = true ->
  PORTION_CACHE_KEY c1 a c2 b = PORTION_CACHE_KEY c1' a' c2' b' ->
  c1 = c1' /\ c2 = c2'
  /\ Js.eq_caseless a a' = true /\ Js.eq_caseless b b' = true.
Proof.
  intros H1 H1' H2 H2' Ha Ha' Hkey. unfold PORTION_CACHE_KEY in Hkey.
  apply append_cancel_l in Hkey.
  change ("-" ++ ?x) with (String "-" x) in Hkey.
  apply split_at_hyphen in Hkey as [Hc1 Hkey];
    [| apply number_toString_hyphen_free; assumption ..].
  change (Js.toLowerCase a ++ String "-" (Js.number_toString c2 ++ "-" ++ Js.toLowerCase b)
          = Js.toLowerCase a' ++ String "-" (Js.number_toString c2' ++ "-" ++ Js.toLowerCase b'))
    in Hkey.
  apply split_at_hyphen in Hkey as [Hla Hkey];
    [| rewrite toLowerCase_hyphen_free; assumption ..].
  change (Js.number_toString c2 ++ String "-" (Js.toLowerCase b)
          = Js.number_toString c2' ++ String "-" (Js.toLowerCase b')) in Hkey.
  apply split_at_hyphen in Hkey as [Hc2 Hlb];
    [| apply number_toString_hyphen_free; assumption ..].
  repeat split.
  - apply number_toString_inj, Hc1.
  - apply number_toString_inj, Hc2.
  - apply toLowerCase_eq_caseless, Hla.
  - apply toLowerCase_eq_caseless, Hlb.
Qed.

Lemma PORTION_CACHE_KEY_injective_witness :
  1 = 1 /\ 10 = 10
  /\ Js.eq_caseless USDC "0xa0b86991c6218b36c1d19d4a2e9eb0ce3606eb48" = true
  /\ Js.eq_caseless "ETH" "eth" = true.
Proof.
  apply (PORTION_CACHE_KEY_injective 1 1 10 10
           USDC "0xa0b86991c6218b36c1d19d4a2e9eb0ce3606eb48" "ETH" "eth");
    first [ lia | reflexivity ].
Defined.

(** With a hyphen inside the first address two different pairs can share
    a key. *)
Example PORTION_CACHE_KEY_collision :
  PORTION_CACHE_KEY 1 "a-2-b" 3 "c" = PORTION_CACHE_KEY 1 "a" 2 "b-3-c".
Proof. reflexivity. Qed.

(** ** What a call of [getPortion] does and does not do *)

Ltac run_getPortion :=
  unfold getPortion, cacheAside, fetchPortion, try_catch, bind, ret, putMetric,
         putMetricIn, uraEnablePortion, cache_get, cache_set, http_get, Date_now,
         log_error, untouched, extends, counter, portionRequest, entryTtl in *;
  cbn [flag_reads clock_reads uuids_drawn requests cache_ops store metrics
       error_log fst snd negb] in *.

Ltac split_path :=
  match goal with
  | |- context [if ?b then _ else _] => destruct b eqn:?
  | |- context [match remote_reply ?e ?n ?r with _ => _ end] =>
      destruct (remote_reply e n r) eqn:?
  | |- context [fst <$> ?m !! ?k] => destruct (m !! k) as [[? ?] |] eqn:?
  end.

Ltac split_paths :=
  repeat (split_path;
          cbn [flag_reads clock_reads uuids_drawn requests cache_ops store metrics
               error_log fst snd negb fmap option_fmap option_map]).

Section GetPortionFootprint.

Variable env : Collaborators.
Variable this : PortionFetcher.
Variables tokenInChainId tokenOutChainId : Z.
Variables tokenInAddress tokenOutAddress : string.

Local Abbreviation key :=
  (PORTION_CACHE_KEY tokenInChainId tokenInAddress tokenOutChainId tokenOutAddress).
Local Abbreviation rq :=
  (portionRequest this tokenInChainId tokenInAddress tokenOutChainId tokenOutAddress).
Local Abbreviation call :=
  (getPortion env this tokenInChainId tokenInAddress tokenOutChainId tokenOutAddress).

(** X2. A call changes the store at most under its own key: either the
    store is as before, or it differs by one entry written under the key of
    the arguments, holding a response with the TTL of its kind.  Entries
    under every other key are as they were. *)
Theorem getPortion_store_frame (w : World) :
  (store (snd (call w)) = store w
   \/ exists data, store (snd (call w)) = <[key := (data, entryTtl this data)]> (store w))
  /\ (forall other, other <> key -> store (snd (call w)) !! other = store w !! other).
Proof.
  assert (H : store (snd (call w)) = store w
              \/ exists data,
                   store (snd (call w)) = <[key := (data, entryTtl this data)]> (store w)).
  { run_getPortion. split_paths;
      first [ left; reflexivity
            | right;
              match goal with
              | E : portion ?d = _ |- _ => exists d; rewrite E; reflexivity
              end ]. }
  split; [exact H |].
  intros other Hother. destruct H as [-> | [data ->]]; [reflexivity |].
  apply lookup_insert_ne. congruence.
Qed.

Ltac reduce_world :=
  cbn [flag_reads clock_reads uuids_drawn requests cache_ops store metrics
       error_log fst snd negb fmap option_fmap option_map].

Ltac step H := rewrite H; reduce_world.

Ltac solve_extends :=
  repeat split;
  first [ reflexivity
        | lia
        | repeat apply prefix_app_r; reflexivity
        | rewrite ?length_app; cbn [List.length]; lia ].

(** X3. A call only adds to what was recorded: earlier requests, store
    operations, metrics and log lines stay in place and no identifier is
    drawn.  It sends at most one request, performs at most two store
    operations, and reads the flag and the clock at most twice each. *)
Theorem getPortion_bounded_footprint (w : World) :
  extends w (snd (call w))
  /\ (List.length (requests (snd (call w))) <= List.length (requests w) + 1)%nat
  /\ (List.length (cache_ops (snd (call w))) <= List.length (cache_ops w) + 2)%nat
  /\ (flag_reads (snd (call w)) <= flag_reads w + 2)%nat
  /\ (clock_reads (snd (call w)) <= clock_reads w + 2)%nat.
Proof. run_getPortion. split_paths; solve_extends. Qed.

(** X4. Every call, whatever its path and outcome, emits the counter
    [PortionFetcherRequest] exactly once, before any other metric. *)
Theorem getPortion_counts_each_request_once (w : World) :
  exists rest,
    metrics (snd (call w)) = (metrics w ++ counter "PortionFetcherRequest" :: rest)%list
    /\ count_metric "PortionFetcherRequest" rest = 0%nat.
Proof.
  run_getPortion. split_paths; rewrite <- ?app_assoc; cbn [app];
    eexists; split; reflexivity.
Qed.

(** X5. With the flag read as disabled twice, the call answers no-portion
    and does nothing but emit the request counter and the counter
    [PortionFetcherFlagDisabled]: no request, no store operation, no clock
    read, no log line. *)
Theorem getPortion_flag_disabled (w : World) :
  flag_value env (flag_reads w) = false ->
  flag_value env (S (flag_reads w)) = false ->
  fst (call w) = Returned GET_NO_PORTION_RESPONSE
  /\ untouched w (snd (call w))
  /\ metrics (snd (call w))
     = (metrics w ++ [counter "PortionFetcherRequest";
                      counter "PortionFetcherFlagDisabled"])%list
  /\ error_log (snd (call w)) = error_log w
  /\ clock_reads (snd (call w)) = clock_reads w.
Proof.
  intros H1 H2. run_getPortion. step H1. step H2.
  rewrite <- app_assoc. repeat split.
Qed.

(** X6. On the cache-aside path - the flag read as disabled, then as
    enabled - force mode bypasses the cache store altogether: whatever the
    store holds, also an entry under the key, the call performs no store
    operation, sends one request carrying the arguments as given, and
    answers with the reply, or with no-portion when the request fails. *)
Theorem getPortion_force_bypasses_store (w : World) :
  flag_value env (flag_reads w) = false ->
  flag_value env (S (flag_reads w)) = true ->
  forcePortion env = true ->
  fst (call w)
  = Returned match remote_reply env (List.length (requests w)) rq with
             | Replied data => data
             | Failed _ => GET_NO_PORTION_RESPONSE
             end
  /\ requests (snd (call w)) = (requests w ++ [rq])%list
  /\ cache_ops (snd (call w)) = cache_ops w
  /\ store (snd (call w)) = store w.
Proof.
  intros H1 H2 Hforce. run_getPortion. step H1. step H2. step Hforce.
  destruct (remote_reply env _ _); reduce_world; repeat split.
Qed.

(** X7. A failed request leaves no trace in the store: after a miss, or in
    force mode, the call answers no-portion, the store holds what it held
    (so the next call asks the service again), one line is logged and the
    counters [PortionFetcherErr] and [PortionFetcherCacheMiss] are emitted. *)
Theorem getPortion_remote_failure_not_cached (w : World) (fault : RemoteFault) :
  flag_value env (flag_reads w) = false ->
  flag_value env (S (flag_reads w)) = true ->
  forcePortion env = true
  \/ (forcePortion env = false
      /\ cache_throws env (List.length (cache_ops w)) = false
      /\ store w !! key = None) ->
  remote_reply env (List.length (requests w)) rq = Failed fault ->
  fst (call w) = Returned GET_NO_PORTION_RESPONSE
  /\ store (snd (call w)) = store w
  /\ requests (snd (call w)) = (requests w ++ [rq])%list
  /\ error_log (snd (call w)) = (error_log w ++ ["PortionFetcherErr"])%list
  /\ metrics (snd (call w))
     = (metrics w ++ [counter "PortionFetcherRequest";
                      counter "PortionFetcherErr";
                      counter "PortionFetcherCacheMiss"])%list.
Proof.
  intros H1 H2 Hmiss Hreply. run_getPortion. step H1. step H2.
  destruct Hmiss as [Hforce | (Hforce & Hget & Hmiss)]; step Hforce.
  - step Hreply. rewrite <- !app_assoc. repeat split.
  - step Hget. step Hmiss. step Hreply. rewrite <- !app_assoc. repeat split.
Qed.

(** X8. When the store's [set] throws after a successful reply, the reply
    is dropped: the call answers no-portion and stores nothing, and its
    metrics count the call both as a success and as an error, with the
    counter [PortionFetcherCacheMiss] emitted twice. *)
Theorem getPortion_set_failure_counted_twice (w : World) (data : GetPortionResponse) :
  flag_value env (flag_reads w) = false ->
  flag_value env (S (flag_reads w)) = true ->
  forcePortion env = false ->
  cache_throws env (List.length (cache_ops w)) = false ->
  store w !! key = None ->
  remote_reply env (List.length (requests w)) rq = Replied data ->
  cache_throws env (S (List.length (cache_ops w))) = true ->
  fst (call w) = Returned GET_NO_PORTION_RESPONSE
  /\ store (snd (call w)) = store w
  /\ error_log (snd (call w)) = (error_log w ++ ["PortionFetcherErr"])%list
  /\ metrics (snd (call w))
     = (metrics w ++
        [counter "PortionFetcherRequest";
         {| metric_name := "Latency-GetPortion";
            metric_value := clock_value env (S (clock_reads w))
                            - clock_value env (clock_reads w);
            metric_unit := Milliseconds |};
         counter "PortionFetcherSuccess";
         counter "PortionFetcherCacheMiss";
         counter "PortionFetcherErr";
         counter "PortionFetcherCacheMiss"])%list.
Proof.
  intros H1 H2 Hforce Hget Hmiss Hreply Hset. run_getPortion.
  step H1. step H2. step Hforce. step Hget. step Hmiss. step Hreply.
  rewrite length_app. cbn [List.length]. rewrite Nat.add_1_r. step Hset.
  rewrite <- !app_assoc. repeat split.
Qed.

End GetPortionFootprint.

Lemma getPortion_store_frame_witness :
  let w := snd (getPortion (scripted [false; true] false (Replied BX_PORTION_RESPONSE) [])
                  sample_fetcher 1 ETH 1 USDC empty_world) in
  store (snd (getPortion (scripted [false; true] false (Replied GET_NO_PORTION_RESPONSE) [])
                sample_fetcher 1 ETH 1 UNI w))
    !! PORTION_CACHE_KEY 1 ETH 1 USDC
  = store w !! PORTION_CACHE_KEY 1 ETH 1 USDC.
Proof.
  intros w.
  apply (getPortion_store_frame
           (scripted [false; true] false (Replied GET_NO_PORTION_RESPONSE) [])
           sample_fetcher 1 1 ETH UNI w).
  vm_compute. discriminate.
Defined.

Lemma getPortion_flag_disabled_witness :
  let result := getPortion (scripted [false; false] false (Replied BX_PORTION_RESPONSE) [true])
                  sample_fetcher 1 ETH 1 USDC empty_world in
  fst result = Returned GET_NO_PORTION_RESPONSE
  /\ untouched empty_world (snd result)
  /\ metrics (snd result)
     = [counter "PortionFetcherRequest"; counter "PortionFetcherFlagDisabled"]
  /\ error_log (snd result) = []
  /\ clock_reads (snd result) = 0%nat.
Proof.
  apply (getPortion_flag_disabled
           (scripted [false; false] false (Replied BX_PORTION_RESPONSE) [true])
           sample_fetcher 1 1 ETH USDC empty_world); reflexivity.
Defined.

Lemma getPortion_force_bypasses_store_witness :
  let result := getPortion (scripted [false; true] true (Replied BX_PORTION_RESPONSE) [true])
                  sample_fetcher 1 ETH 1 UNI empty_world in
  fst result = Returned BX_PORTION_RESPONSE
  /\ requests (snd result) = [portionRequest sample_fetcher 1 ETH 1 UNI]
  /\ cache_ops (snd result) = []
  /\ store (snd result) = ∅.
Proof.
  apply (getPortion_force_bypasses_store
           (scripted [false; true] true (Replied BX_PORTION_RESPONSE) [true])
           sample_fetcher 1 1 ETH UNI empty_world); reflexivity.
Defined.

Lemma getPortion_remote_failure_not_cached_witness :
  let result := getPortion (scripted [false; true] false (Failed (BadStatus 502)) [])
                  sample_fetcher 1 ETH 1 UNI empty_world in
  fst result = Returned GET_NO_PORTION_RESPONSE
  /\ store (snd result) = ∅
  /\ requests (snd result) = [portionRequest sample_fetcher 1 ETH 1 UNI]
  /\ error_log (snd result) = ["PortionFetcherErr"]
  /\ metrics (snd result)
     = [counter "PortionFetcherRequest"; counter "PortionFetcherErr";
        counter "PortionFetcherCacheMiss"].
Proof.
  apply (getPortion_remote_failure_not_cached
           (scripted [false; true] false (Failed (BadStatus 502)) [])
           sample_fetcher 1 1 ETH UNI empty_world (BadStatus 502));
    first [ reflexivity | right; repeat split ].
Defined.

Lemma getPortion_set_failure_counted_twice_witness :
  let result := getPortion
                  (scripted [false; true] false (Replied BX_PORTION_RESPONSE) [false; true])
                  sample_fetcher 1 ETH 1 USDC empty_world in
  fst result = Returned GET_NO_PORTION_RESPONSE
  /\ store (snd result) = ∅
  /\ count_metric "PortionFetcherSuccess" (metrics (snd result)) = 1%nat
  /\ count_metric "PortionFetcherErr" (metrics (snd result)) = 1%nat
  /\ count_metric "PortionFetcherCacheMiss" (metrics (snd result)) = 2%nat.
Proof.
  intros result.
  destruct (getPortion_set_failure_counted_twice
              (scripted [false; true] false (Replied BX_PORTION_RESPONSE) [false; true])
              sample_fetcher 1 1 ETH USDC empty_world BX_PORTION_RESPONSE)
    as (Hr & Hs & _ & Hm); try reflexivity.
  split; [exact Hr |]. split; [exact Hs |].
  subst result. rewrite Hm. split; [| split]; reflexivity.
Defined.

(** X9. On the cache-aside path - the flag read as disabled, then as
    enabled - with force mode off and a store whose [get] does not throw,
    a cached entry is found under any casing of the addresses: when the
    store holds an entry under the key of one spelling of a pair, a call
    with the pair spelled in another casing returns that entry, sends no
    request and leaves the store as it is. *)
Theorem getPortion_hit_ignores_casing
    (env : Collaborators) (this : PortionFetcher)
    (tokenInChainId tokenOutChainId : Z) (a b a' b' : string)
    (w : World) (cached : GetPortionResponse) (ttl : Z) :
  flag_value env (flag_reads w) = false ->
  flag_value env (S (flag_reads w)) = true ->
  forcePortion env = false ->
  cache_throws env (List.length (cache_ops w)) = false ->
  Js.eq_caseless a a' = true ->
  Js.eq_caseless b b' = true ->
  store w !! PORTION_CACHE_KEY tokenInChainId a tokenOutChainId b = Some (cached, ttl) ->
  let result := getPortion env this tokenInChainId a' tokenOutChainId b' w in
  fst result = Returned cached
  /\ requests (snd result) = requests w
  /\ store (snd result) = store w.
Proof.
  intros H1 H2 Hforce Hget Ha Hb Hhit result. subst result.
  unfold PORTION_CACHE_KEY in Hhit.
  rewrite (eq_caseless_toLowerCase _ _ Ha), (eq_caseless_toLowerCase _ _ Hb) in Hhit.
  rewrite getPortion_toggled by assumption.
  apply (cacheAside_hit env this tokenInChainId tokenOutChainId a' b'
           (at_cache_aside w) cached ttl); assumption.
Qed.

Lemma getPortion_hit_ignores_casing_witness :
  let env := scripted [false; true; false; true] false (Replied BX_PORTION_RESPONSE) [] in
  let first := getPortion env sample_fetcher 1 "0xABCDEF" 1 "0xfedcba" empty_world in
  let second := getPortion env sample_fetcher 1 "0xabcdef" 1 "0XFEDCBA" (snd first) in
  fst second = Returned BX_PORTION_RESPONSE
  /\ requests (snd second) = requests (snd first)
  /\ store (snd second) = store (snd first).
Proof.
  intros env first second.
  apply (getPortion_hit_ignores_casing env sample_fetcher 1 1
           "0xABCDEF" "0xfedcba" "0xabcdef" "0XFEDCBA" (snd first)
           BX_PORTION_RESPONSE 600); reflexivity.
Defined.

(** ** The allowlist *)

Lemma includes_In (xs : list string) (x : string) :
  In x xs -> Js.includes xs x = true.
Proof.
  induction xs as [| y ys IH]; cbn [In Js.includes]; [tauto |].
  intros [-> | H]; [rewrite String.eqb_refl; reflexivity |].
  rewrite (IH H). destruct (String.eqb y x); reflexivity.
Qed.

(** Every entry of the allowlist is written in lower case. *)
Lemma BX_PORTION_ADDRESSES_lower_case (x : string) :
  In x BX_PORTION_ADDRESSES -> Js.toLowerCase x = x.
Proof.
  unfold BX_PORTION_ADDRESSES. cbn [In].
  intros H. repeat (destruct H as [<- | H]; [reflexivity |]). contradiction.
Qed.

(** X10. The allowlist admits its addresses in any casing: with the flag
    read as enabled, a pair whose addresses are, up to letter casing,
    entries of the allowlist (a checksummed address, [ETH]) gets the flat
    response. *)
Theorem getPortion_allowlist_any_casing
    (env : Collaborators) (this : PortionFetcher)
    (tokenInChainId tokenOutChainId : Z) (a b x y : string) (w : World) :
  flag_value env (flag_reads w) = true ->
  In x BX_PORTION_ADDRESSES -> In y BX_PORTION_ADDRESSES ->
  Js.eq_caseless a x = true -> Js.eq_caseless b y = true ->
  fst (getPortion env this tokenInChainId a tokenOutChainId b w)
  = Returned BX_PORTION_RESPONSE.
Proof.
  intros Hflag Hx Hy Ha Hb.
  destruct (getPortion_enabled env this tokenInChainId tokenOutChainId a b w Hflag)
    as [Hres _].
  rewrite Hres.
  rewrite (eq_caseless_toLowerCase _ _ Ha), (eq_caseless_toLowerCase _ _ Hb).
  rewrite (BX_PORTION_ADDRESSES_lower_case x Hx), (BX_PORTION_ADDRESSES_lower_case y Hy).
  rewrite (includes_In _ _ Hx), (includes_In _ _ Hy). reflexivity.
Qed.

Lemma getPortion_allowlist_any_casing_witness :
  fst (getPortion (scripted [true] false (Failed NetworkError) []) sample_fetcher
         1 "ETH" 1 USDC empty_world)
  = Returned BX_PORTION_RESPONSE.
Proof.
  apply (getPortion_allowlist_any_casing
           (scripted [true] false (Failed NetworkError) []) sample_fetcher
           1 1 "ETH" USDC "eth" "0xa0b86991c6218b36c1d19d4a2e9eb0ce3606eb48" empty_world).
  - reflexivity.
  - left. reflexivity.
  - right. right. left. reflexivity.
  - reflexivity.
  - reflexivity.
Defined.

(** ** Amounts and permit data of a classic quote *)

(** X11. The fixed side of a trade is never adjusted: for [EXACT_INPUT]
    the gas-adjusted and the gas-and-portion-adjusted input are the input
    itself, for [EXACT_OUTPUT] the same holds of the output, whatever the
    fields [quoteGasAdjusted] and [quoteGasAndPortionAdjusted] hold. *)
Theorem ClassicQuote_fixed_side_unadjusted (q : ClassicQuote.t) :
  (ClassicQuote.tradeTypeOf q = EXACT_INPUT ->
   ClassicQuote.amountInGasAdjusted q = ClassicQuote.amountIn q
   /\ ClassicQuote.amountInGasAndPortionAdjusted q = ClassicQuote.amountIn q)
  /\ (ClassicQuote.tradeTypeOf q = EXACT_OUTPUT ->
      ClassicQuote.amountOutGasAdjusted q = ClassicQuote.amountOut q
      /\ ClassicQuote.amountOutGasAndPortionAdjusted q = ClassicQuote.amountOut q).
Proof.
  unfold ClassicQuote.amountInGasAdjusted, ClassicQuote.amountInGasAndPortionAdjusted,
         ClassicQuote.amountOutGasAdjusted, ClassicQuote.amountOutGasAndPortionAdjusted,
         ClassicQuote.amountIn, ClassicQuote.amountOut.
  split; intros ->; split; reflexivity.
Qed.

Lemma ClassicQuote_fixed_side_unadjusted_witness :
  let q := sample_quote EXACT_INPUT None (sample_body "100" "95" "not a number" (Some "")) None in
  ClassicQuote.amountInGasAdjusted q = ClassicQuote.amountIn q
  /\ ClassicQuote.amountInGasAndPortionAdjusted q = ClassicQuote.amountIn q.
Proof.
  intros q. apply (ClassicQuote_fixed_side_unadjusted q). reflexivity.
Defined.

Section PermitDataFootprint.

Variable env : Collaborators.
Variable PermitSingleData : Type.
Variable createPermitData : string -> Z -> string -> PermitSingleData.

Local Abbreviation permit :=
  (ClassicQuote.getPermitData env PermitSingleData createPermitData).






(** X16. Only the allowance recorded last counts, and recording one leaves
    the amounts alone: [getPermitData] after two recordings is
    [getPermitData] after the second, and clearing the record brings the
    nonce ['0'] back. *)
Theorem setAllowanceData_last_write_wins (q : ClassicQuote.t) (w : World)
    (earlier last : option PermitDetails) :
  permit (ClassicQuote.setAllowanceData last (ClassicQuote.setAllowanceData earlier q)) w
  = permit (ClassicQuote.setAllowanceData last q) w
  /\ ClassicQuote.amountIn (ClassicQuote.setAllowanceData last q) = ClassicQuote.amountIn q
  /\ ClassicQuote.amountOut (ClassicQuote.setAllowanceData last q) = ClassicQuote.amountOut q
  /\ (ClassicQuote.noSwapper q = false ->
      fst (permit (ClassicQuote.setAllowanceData None
                     (ClassicQuote.setAllowanceData earlier q)) w)
      = Returned (Some (createPermitData
                          (QuoteRequest.tokenIn (QuoteRequest.info (ClassicQuote.request q)))
                          (QuoteRequest.tokenInChainId
                             (QuoteRequest.info (ClassicQuote.request q)))
                          "0"))).
Proof.
  split; [reflexivity |]. split; [reflexivity |]. split; [reflexivity |].
  intros Hsw.
  apply (getPermitData_no_allowance env PermitSingleData createPermitData
           (ClassicQuote.setAllowanceData None (ClassicQuote.setAllowanceData earlier q)) w);
    [exact Hsw | reflexivity].
Qed.

End PermitDataFootprint.




Lemma setAllowanceData_last_write_wins_witness :
  let q := sample_quote EXACT_INPUT (Some "0x5555555555555555555555555555555555555555")
             (sample_body "100" "95" "94" None) None in
  fst (ClassicQuote.getPermitData (scripted [] false (Failed NetworkError) []) _ permitOf
         (ClassicQuote.setAllowanceData None
            (ClassicQuote.setAllowanceData (Some (sample_allowance "100" 1800000000 7)) q))
         empty_world)
  = Returned (Some ("0xA0b86991c6218b36c1d19D4a2e9Eb0cE3606eB48", 1, "0")).
Proof.
  intros q.
  apply (setAllowanceData_last_write_wins
           (scripted [] false (Failed NetworkError) []) _ permitOf q empty_world
           (Some (sample_allowance "100" 1800000000 7)) None).
  reflexivity.
Defined.

(** ** The log record *)

Section LogRecord.

Variable number : Type.
Variable parseFloat : string -> number.
Variable minusOne : number.
Variable RoutingType_CLASSIC : string.
Variable RoutingType_lookup : string -> string.

Local Abbreviation log :=
  (toLog number parseFloat minusOne RoutingType_CLASSIC RoutingType_lookup).

(** X17. [toLog] returns a record exactly when the three fields [amount],
    [quote] and [quoteGasAdjusted] of the payload are integer strings
    (decimal numerals, or hexadecimal ones after a lower-case [0x]), for
    either trade type; otherwise it throws.  The field
    [quoteGasAndPortionAdjusted] is not read as a number and cannot make
    it fail. *)
Theorem toLog_returns_iff_numeric (q : ClassicQuote.t) :
  (exists l, log q = Returned l)
  <-> isIntegerString (amount (ClassicQuote.quoteData q))
      /\ isIntegerString (quote (ClassicQuote.quoteData q))
      /\ isIntegerString (quoteGasAdjusted (ClassicQuote.quoteData q)).
Proof.
  unfold toLog, isIntegerString, printed, andThen, ClassicQuote.amountIn,
         ClassicQuote.amountOut, ClassicQuote.amountInGasAdjusted,
         ClassicQuote.amountOutGasAdjusted.
  destruct (ClassicQuote.tradeTypeOf q); cbn [TradeType_eqb];
    destruct (BigNumber.from_string (amount (ClassicQuote.quoteData q))) as [[? | ?] |];
    destruct (BigNumber.from_string (quote (ClassicQuote.quoteData q))) as [[? | ?] |];
    destruct (BigNumber.from_string (quoteGasAdjusted (ClassicQuote.quoteData q)))
      as [[? | ?] |];
    cbn [BigNumber.print BigNumber.toBN];
    (split;
     [ intros [l H]; try discriminate H; repeat split; eexists; reflexivity
     | intros ([? ?] & [? ?] & [? ?]); try discriminate; eexists; reflexivity ]).
Qed.

(** X18. What a log record holds: the requester is left blank even when
    the request names one; the end amounts are the amounts; each logged
    amount is the decimal numeral of the accessor's value and reads back
    as that value; the gas-and-portion-adjusted amounts are not logged,
    while the raw field [quoteGasAndPortionAdjusted] is passed on as it
    came. *)
Theorem toLog_contents (q : ClassicQuote.t) (l : LogJSON.t number) :
  log q = Returned l ->
  LogJSON.swapper number l = ""
  /\ LogJSON.endAmountIn number l = LogJSON.amountIn number l
  /\ LogJSON.endAmountOut number l = LogJSON.amountOut number l
  /\ BigNumber.from_string (LogJSON.amountIn number l) = ClassicQuote.amountIn q
  /\ BigNumber.from_string (LogJSON.amountOut number l) = ClassicQuote.amountOut q
  /\ BigNumber.from_string <$> LogJSON.amountInGasAdjusted number l
     = Some (ClassicQuote.amountInGasAdjusted q)
  /\ BigNumber.from_string <$> LogJSON.amountOutGasAdjusted number l
     = Some (ClassicQuote.amountOutGasAdjusted q)
  /\ LogJSON.amountInGasAndPortionAdjusted number l = None
  /\ LogJSON.amountOutGasAndPortionAdjusted number l = None
  /\ LogJSON.quoteGasAndPortionAdjusted number l
     = quoteGasAndPortionAdjusted (ClassicQuote.quoteData q).
Proof.
  unfold toLog, printed, andThen.
  destruct (ClassicQuote.amountIn q) as [[i | ?] |];
    cbn [BigNumber.print BigNumber.toBN]; [| discriminate ..].
  destruct (ClassicQuote.amountOut q) as [[o | ?] |];
    cbn [BigNumber.print BigNumber.toBN]; [| discriminate ..].
  destruct (ClassicQuote.amountInGasAdjusted q) as [[ig | ?] |];
    cbn [BigNumber.print BigNumber.toBN]; [| discriminate ..].
  destruct (ClassicQuote.amountOutGasAdjusted q) as [[og | ?] |];
    cbn [BigNumber.print BigNumber.toBN]; [| discriminate ..].
  intros H. injection H as <-.
  cbn [LogJSON.swapper LogJSON.endAmountIn LogJSON.amountIn LogJSON.endAmountOut
       LogJSON.amountOut LogJSON.amountInGasAdjusted LogJSON.amountOutGasAdjusted
       LogJSON.amountInGasAndPortionAdjusted LogJSON.amountOutGasAndPortionAdjusted
       LogJSON.quoteGasAndPortionAdjusted fmap option_fmap option_map].
  rewrite !from_string_number_toString.
  repeat split.
Qed.

End LogRecord.

Lemma toLog_returns_iff_numeric_witness :
  exists l,
    toLog Z (fun _ => 0) (-1) "CLASSIC" (fun tag => tag)
      (sample_quote EXACT_OUTPUT (Some "0x5555555555555555555555555555555555555555")
         (sample_body "0x64" "0095" "96" (Some "not a number")) None)
    = Returned l.
Proof.
  apply (toLog_returns_iff_numeric Z (fun _ => 0) (-1) "CLASSIC" (fun tag => tag)).
  repeat split; eexists; reflexivity.
Defined.

Lemma toLog_contents_witness :
  let q := sample_quote EXACT_OUTPUT (Some "0x5555555555555555555555555555555555555555")
             (sample_body "0x64" "0095" "96" (Some "not a number")) None in
  exists l,
    toLog Z (fun _ => 0) (-1) "CLASSIC" (fun tag => tag) q = Returned l
    /\ LogJSON.swapper Z l = ""
    /\ LogJSON.amountIn Z l = "95"
    /\ LogJSON.amountOut Z l = "100".
Proof.
  intros q. eexists. split; [vm_compute; reflexivity |].
  split; [| split; reflexivity].
  apply (toLog_contents Z (fun _ => 0) (-1) "CLASSIC" (fun tag => tag) q).
  vm_compute. reflexivity.
Defined.

(** An amount with an upper-case [0X] prefix is refused when it is
    printed. *)
Example toLog_upper_case_prefix :
  toLog Z (fun _ => 0) (-1) "CLASSIC" (fun tag => tag)
    (sample_quote EXACT_INPUT None (sample_body "0X1F" "95" "94" None) None)
  = Thrown (InvalidCharacter "0X1F").
Proof. reflexivity. Qed.

(** ** Dispatch on the routing tag *)

Section Dispatch.

Variable env : Collaborators.
Variables DUTCH_LIMIT CLASSIC : string.
Variables DutchLimitQuote ReceivedQuoteData : Type.
Variable dutchFromResponseBody : QuoteRequest.t -> ReceivedQuoteData -> M DutchLimitQuote.
Variable asClassic : ReceivedQuoteData -> ClassicQuoteDataJSON.

Local Abbreviation parse :=
  (parseQuote env DUTCH_LIMIT CLASSIC DutchLimitQuote ReceivedQuoteData
     dutchFromResponseBody asClassic).

(** X19. The tag alone decides the kind of entity: a classic quote comes
    only from the tag [CLASSIC] (and only when that tag is not also the
    limit-order tag, which is tried first); a limit-order quote comes only
    from the tag [DUTCH_LIMIT], and it is the one its constructor returned,
    in the world that constructor left. *)
Theorem parseQuote_dispatch_sound
    (request : QuoteRequest.t) (routing : string) (payload : ReceivedQuoteData)
    (w w' : World) :
  (forall q, parse request routing payload w = (Returned (QuoteClassic _ q), w') ->
             routing = CLASSIC /\ routing <> DUTCH_LIMIT)
  /\ (forall d, parse request routing payload w = (Returned (QuoteDutchLimit _ d), w') ->
                routing = DUTCH_LIMIT
                /\ dutchFromResponseBody request payload w = (Returned d, w')).
Proof.
  unfold parseQuote, bind, ret, throw.
  destruct (String.eqb routing DUTCH_LIMIT) eqn:Hd.
  - apply String.eqb_eq in Hd.
    destruct (dutchFromResponseBody request payload w) as [[d0 | e0] w0];
      split; intros x Hx; inversion Hx; subst; auto.
  - apply String.eqb_neq in Hd.
    destruct (String.eqb routing CLASSIC) eqn:Hc.
    + apply String.eqb_eq in Hc.
      destruct (ClassicQuote.fromResponseBody env request (asClassic payload) w)
        as [[q0 | e0] w0];
        split; intros x Hx; inversion Hx; subst; auto.
    + split; intros x Hx; inversion Hx.
Qed.

(** X20. With the tag [CLASSIC] (the timestamp helpers of [lib/util/time]
    taken as returning) the payload becomes a classic quote that wraps the
    request and the payload as they came, takes the next identifier of the
    generator as its [quoteId] and has no allowance recorded; cache store
    and portion service are not involved.  Asked for permit data, such a
    quote answers with nonce ['0'] whenever the request names a requester,
    whatever numbers the payload holds. *)
Theorem parseQuote_classic_entity
    (request : QuoteRequest.t) (payload : ReceivedQuoteData) (w : World) :
  CLASSIC <> DUTCH_LIMIT ->
  exists q w',
    parse request CLASSIC payload w = (Returned (QuoteClassic _ q), w')
    /\ ClassicQuote.request q = request
    /\ ClassicQuote.quoteData q = asClassic payload
    /\ ClassicQuote.allowanceData q = None
    /\ ClassicQuote.quoteId q = uuid_value env (uuids_drawn w)
    /\ uuids_drawn w' = S (uuids_drawn w)
    /\ untouched w w'
    /\ (forall (PermitSingleData : Type)
               (createPermitData : string -> Z -> string -> PermitSingleData)
               (later : World),
          ClassicQuote.noSwapper q = false ->
          fst (ClassicQuote.getPermitData env PermitSingleData createPermitData q later)
          = Returned (Some (createPermitData
                              (QuoteRequest.tokenIn (QuoteRequest.info request))
                              (QuoteRequest.tokenInChainId (QuoteRequest.info request))
                              "0"))).
Proof.
  intros Hne. apply String.eqb_neq in Hne.
  unfold parseQuote. rewrite Hne, String.eqb_refl.
  unfold bind, ret, ClassicQuote.fromResponseBody, ClassicQuote.currentTimestampInMs,
         uuidv4, Date_now, untouched.
  cbn [flag_reads clock_reads uuids_drawn requests cache_ops store metrics
       error_log fst snd].
  eexists. eexists. split; [reflexivity |].
  cbn [ClassicQuote.request ClassicQuote.quoteData ClassicQuote.allowanceData
       ClassicQuote.quoteId uuids_drawn requests cache_ops store].
  repeat split.
  intros P create later Hsw.
  apply getPermitData_no_allowance; [exact Hsw | reflexivity].
Qed.

End Dispatch.

Lemma parseQuote_classic_entity_witness :
  exists q w',
    parseQuote (scripted [] false (Failed NetworkError) []) "DUTCH_LIMIT" "CLASSIC"
      unit ClassicQuoteDataJSON (fun _ _ => ret tt) (fun body => body)
      {| QuoteRequest.info :=
           sample_info EXACT_INPUT (Some "0x5555555555555555555555555555555555555555") |}
      "CLASSIC" (sample_body "1e+21" "95" "94" None) empty_world
    = (Returned (QuoteClassic unit q), w')
    /\ ClassicQuote.allowanceData q = None
    /\ ClassicQuote.quoteId q = "3f2b8c1e-0000-4000-8000-000000000000".
Proof.
  destruct (parseQuote_classic_entity
              (scripted [] false (Failed NetworkError) []) "DUTCH_LIMIT" "CLASSIC"
              unit ClassicQuoteDataJSON (fun _ _ => ret tt) (fun body => body)
              {| QuoteRequest.info :=
                   sample_info EXACT_INPUT (Some "0x5555555555555555555555555555555555555555") |}
              (sample_body "1e+21" "95" "94" None) empty_world)
    as (q & w' & Hparse & _ & _ & Hal & Hid & _); [discriminate |].
  exists q, w'. split; [exact Hparse |]. split; [exact Hal | exact Hid].
Defined.

Lemma parseQuote_dispatch_sound_witness :
  "CLASSIC" = "CLASSIC" /\ "CLASSIC" <> "DUTCH_LIMIT".
Proof.
  eapply (parseQuote_dispatch_sound
            (scripted [] false (Failed NetworkError) []) "DUTCH_LIMIT" "CLASSIC"
            unit ClassicQuoteDataJSON (fun _ _ => ret tt) (fun body => body)
            {| QuoteRequest.info := sample_info EXACT_INPUT None |}
            "CLASSIC" (sample_body "100" "95" "94" None) empty_world).
  reflexivity.
Defined.
